(** * Orthomosaic tiling: a shallow embedding of [split.py]

    [split_image] cuts a georeferenced raster into square tiles of a given
    physical size and writes every non-empty tile as a PNG file.  This file
    embeds the function in Rocq and proves the properties its specification
    states about the tile grid, the per-band output policy and the two fatal
    validation failures.

    Conventions of the embedding.

    - Python [int] is [Z]; [//] is floor division, which is [Z.div].
    - Python [float] is IEEE-754 binary64, modelled by [spec_float] of the
      Standard Library with [prec = 53] and [emax = 1024]; [/] is the
      correctly rounded [SFdiv].
    - The function has no return value: everything it does is an effect.
      Effects are recorded, in program order, as a list of [event]s (console
      messages, directory creation, opening and closing the raster, windowed
      reads, image writes).  A computation is a pair of an [outcome] (normal
      completion or a raised exception) and the events emitted so far.
    - The file system and the raster library are read through a [world]:
      which paths are files, which paths exist, and which dataset opening a
      path yields.  Windowed reads of an opened dataset and image writes are
      taken to succeed.  [split_image] also takes the creation of the output
      directory to succeed; [split_image_os] is the same run without that
      assumption ([os.makedirs] may raise), and the two agree whenever the
      directory exists or its creation succeeds.
    - Samples are integers (the usual [uint8]/[uint16] orthomosaic bands). *)

From Stdlib Require Import ZArith List Ascii String Lia Bool SpecFloat DecimalString.
From Stdlib Require DecimalPos DecimalZ.
Import ListNotations.
Local Open Scope string_scope.
Local Open Scope Z_scope.

(* ================================================================== *)
(** * Python values *)

(** ** Floats *)

Definition prec : Z := 53.
Definition emax : Z := 1024.

Definition float : Type := spec_float.

(** [b64 m e] is the binary64 number nearest to [m * 2^e] (exactly that
    number whenever it is representable). *)
Definition b64 (m e : Z) : float := binary_normalize prec emax m e false.

(** ** Exceptions: the Python class and the message *)

Inductive exception : Type :=
  | FileNotFoundError (msg : string)
  | ValueError (msg : string)
  | OverflowError (msg : string)
  | ZeroDivisionError (msg : string)
  | RasterioIOError (msg : string).

Inductive outcome (A : Type) : Type :=
  | Ok (a : A)
  | Raise (e : exception).
Arguments Ok {A} a.
Arguments Raise {A} e.

(** The message of line 15. *)
Definition not_found_msg (image_path : string) : string :=
  "O arquivo " ++ image_path ++ " não foi encontrado.".

(** The message of line 34. *)
Definition resolution_msg : string :=
  "Não foi possível determinar a resolução espacial da imagem. Verifique se o GeoTIFF possui metadados válidos.".

(** The two failures the specification names. *)
Definition NotFoundError (image_path : string) : exception :=
  FileNotFoundError (not_found_msg image_path).
Definition InvalidResolutionError : exception :=
  ValueError resolution_msg.

(** ** Built-in operations used by [split_image] *)

(** [x == 0] on a float: true for both zeros, false for NaN. *)
Definition float_eq_zero (x : float) : bool :=
  SFeqb x (S754_zero false).

(** [0 < x] on a float. *)
Definition float_pos (x : float) : bool :=
  SFltb (S754_zero false) x.

(** [x / y] on floats. *)
Definition py_truediv (x y : float) : outcome float :=
  if float_eq_zero y then Raise (ZeroDivisionError "float division by zero")
  else Ok (SFdiv prec emax x y).

(** [math.ceil(x)]: the least integer not below [x], as an unbounded
    integer; infinities and NaN cannot be converted. *)
Definition math_ceil (x : float) : outcome Z :=
  match x with
  | S754_zero _ => Ok 0
  | S754_infinity _ =>
      Raise (OverflowError "cannot convert float infinity to integer")
  | S754_nan => Raise (ValueError "cannot convert float NaN to integer")
  | S754_finite s m e =>
      let n := cond_Zopp s (Zpos m) in
      Ok (if 0 <=? e then n * 2 ^ e else - ((- n) / 2 ^ (- e)))
  end.

(** [a // b] on integers. *)
Definition py_floordiv (a b : Z) : outcome Z :=
  if b =? 0 then Raise (ZeroDivisionError "integer division or modulo by zero")
  else Ok (a / b).

(** [range(n)]. *)
Definition range (n : Z) : list Z :=
  map Z.of_nat (seq 0 (Z.to_nat n)).

(** [str(n)] for an integer, as used by the f-string of the file name. *)
Definition str_int (n : Z) : string :=
  NilZero.string_of_int (Z.to_int n).

(** [os.path.join(a, b)] for two components (POSIX). *)
Definition starts_with_slash (s : string) : bool :=
  match s with
  | String c _ => Ascii.eqb c "/"%char
  | EmptyString => false
  end.

Fixpoint ends_with_slash (s : string) : bool :=
  match s with
  | EmptyString => false
  | String c EmptyString => Ascii.eqb c "/"%char
  | String _ rest => ends_with_slash rest
  end.

Definition os_path_join (a b : string) : string :=
  if starts_with_slash b then b
  else if String.eqb a EmptyString || ends_with_slash a then a ++ b
  else a ++ "/" ++ b.

(* ================================================================== *)
(** * Arrays *)

(** A three-dimensional array as nested lists; axis 0 is the outermost. *)
Definition ndarray3 : Type := list (list (list Z)).
Definition ndarray2 : Type := list (list Z).

(** [np.transpose(t, (1, 2, 0))]: [out[h][w][b] = t[b][h][w]]. *)
Definition np_transpose_1_2_0 (t : ndarray3) : ndarray3 :=
  let H := List.length (hd [] t) in
  let W := List.length (hd [] (hd [] t)) in
  map (fun h =>
         map (fun w => map (fun band => nth w (nth h band []) 0) t)
             (seq 0 W))
      (seq 0 H).

(** [img[:, :, idx]] for a list of channel indices [idx]. *)
Definition take_channels (idx : list nat) (img : ndarray3) : ndarray3 :=
  map (map (fun px => map (fun k => nth k px 0) idx)) img.

(** [img[:, :, k]]. *)
Definition channel (k : nat) (img : ndarray3) : ndarray2 :=
  map (map (fun px => nth k px 0)) img.

(** [np.all(a == 0)]. *)
Definition np_all_eq_zero (a : ndarray2) : bool :=
  forallb (forallb (fun v => v =? 0)) a.

(** [np.any(img)]: some sample is non-zero. *)
Definition np_any (img : ndarray3) : bool :=
  existsb (existsb (existsb (fun v => negb (v =? 0)))) img.

(* ================================================================== *)
(** * The raster library and the file system *)

(** The affine transform [(a, b, c, d, e, f)]; [transform[0]] is [a] and
    [transform[4]] is [e]. *)
Record Affine : Type := mkAffine {
  aff_a : float; aff_b : float; aff_c : float;
  aff_d : float; aff_e : float; aff_f : float
}.

(** An opened dataset: [src.width], [src.height], [src.count],
    [src.transform] and the samples by band, row and column. *)
Record DatasetReader : Type := mkDataset {
  ds_width : Z;
  ds_height : Z;
  ds_count : Z;
  ds_transform : Affine;
  ds_sample : Z -> Z -> Z -> Z
}.

(** [Window(col_off, row_off, width, height)]. *)
Record Window : Type := mkWindow {
  col_off : Z; row_off : Z; width : Z; height : Z
}.

(** What the program can observe of its surroundings. *)
Record world : Type := mkWorld {
  os_path_isfile : string -> bool;
  os_path_exists : string -> bool;
  rasterio_open : string -> option DatasetReader
}.

(** The value of [src.read(window=window)]: shape (band, height, width). *)
Definition read_window (src : DatasetReader) (win : Window) : ndarray3 :=
  map (fun b =>
         map (fun r =>
                map (fun c => ds_sample src b (row_off win + r) (col_off win + c))
                    (range (width win)))
             (range (height win)))
      (range (ds_count src)).

(* ================================================================== *)
(** * Effects *)

(** The texts printed by [split_image], by template, with the values
    interpolated into them. *)
Inductive message : Type :=
  | MsgProcessing (image_path : string) (tile_width_meters : float)
  | MsgDirWarning
  | MsgMetaHeader
  | MsgMetaSize (img_width img_height : Z)
  | MsgMetaBands (count_bands : Z)
  | MsgMetaResolution (pixel_width_meters pixel_height_meters : float)
  | MsgMetaTile (tile_width_meters : float) (tile_width_pixels : Z)
  | MsgMetaDtypes
  | MsgMetaProfile
  | MsgMetaFooter
  | MsgCreating (n_tiles w_tiles h_tiles : Z)
  | MsgTileEmptyAlpha (tile_number : Z)
  | MsgTileEmpty (tile_number : Z)
  | MsgTileSaved (tile_number : Z) (output_path : string)
  | MsgTileUnsupported (tile_number count_bands : Z)
  | MsgDone.

Inductive event : Type :=
  | Print (m : message)
  | MakeDirs (path : string)
  | Open (path : string)
  | Close (path : string)
  | Read (win : Window)
  | ImWrite (path : string) (img : ndarray3).

(** A computation: its outcome and the events it emitted, in order. *)
Definition M (A : Type) : Type := (outcome A * list event)%type.

Definition ret {A} (a : A) : M A := (Ok a, []).

Definition bind {A B} (m : M A) (f : A -> M B) : M B :=
  match m with
  | (Ok a, t) => let '(r, t') := f a in (r, (t ++ t')%list)
  | (Raise e, t) => (Raise e, t)
  end.

Definition raise {A} (e : exception) : M A := (Raise e, []).
Definition emit (ev : event) : M unit := (Ok tt, [ev]).
Definition lift {A} (o : outcome A) : M A := (o, []).

Declare Scope py_scope.
Delimit Scope py_scope with py.
Notation "x <- c1 ;; c2" := (bind c1 (fun x => c2))
  (at level 61, c1 at next level, right associativity) : py_scope.
Notation "c1 ;; c2" := (bind c1 (fun _ => c2))
  (at level 61, right associativity) : py_scope.
Local Open Scope py_scope.

Definition print (m : message) : M unit := emit (Print m).

(** [if cond: body] with no [else]. *)
Definition when (cond : bool) (body : M unit) : M unit :=
  if cond then body else ret tt.

(** [for x in xs: s = body(x, s)], the loop-carried variable being [s]. *)
Fixpoint for_each {A S} (xs : list A) (body : A -> S -> M S) (s : S) : M S :=
  match xs with
  | [] => ret s
  | x :: rest => s' <- body x s ;; for_each rest body s'
  end.

(** [with rasterio.open(path) as src: body]: the dataset is closed when the
    block is left, normally or by an exception. *)
Definition with_rasterio_open {A} (w : world) (path : string)
    (body : DatasetReader -> M A) : M A :=
  match rasterio_open w path with
  | None => raise (RasterioIOError path)
  | Some src =>
      let '(r, t) := body src in
      (r, ([Open path] ++ t ++ [Close path])%list)
  end.

(** [src.read(window=window)]. *)
Definition src_read (src : DatasetReader) (win : Window) : M ndarray3 :=
  emit (Read win) ;; ret (read_window src win).

(** [cv2.imwrite(path, img)]. *)
Definition cv2_imwrite (path : string) (img : ndarray3) : M unit :=
  emit (ImWrite path img).

(* ================================================================== *)
(** * [split_image] *)

(** Lines 57-62: the window of the tile in row [i] and column [j]. *)
Definition tile_window (img_width img_height tile_width_pixels i j : Z) : Window :=
  let x := j * tile_width_pixels in
  let y := i * tile_width_pixels in
  let width := Z.min tile_width_pixels (img_width - x) in
  let height := Z.min tile_width_pixels (img_height - y) in
  mkWindow x y width height.

(** Lines 87-88. *)
Definition tile_output_path (save_path project_name : string) (tile_number : Z) : string :=
  let tile_filename := project_name ++ "_tile_" ++ str_int tile_number ++ ".png" in
  os_path_join save_path tile_filename.

(** Lines 57-113: the body of the inner loop.  It receives the current
    [tile_number] and yields the next one; [continue] ends the body. *)
Definition process_tile (src : DatasetReader) (save_path project_name : string)
    (tile_width_pixels i j : Z) (tile_number : Z) : M Z :=
  let img_width := ds_width src in
  let img_height := ds_height src in
  let count_bands := ds_count src in
  let window := tile_window img_width img_height tile_width_pixels i j in
  tile_data <- src_read src window ;;
  if count_bands =? 4 then
    let out_img := np_transpose_1_2_0 tile_data in
    let out_img := take_channels [2; 1; 0; 3]%nat out_img in
    let alpha_channel := channel 3 out_img in
    if np_all_eq_zero alpha_channel then
      print (MsgTileEmptyAlpha tile_number) ;;
      ret (tile_number + 1)
    else
      let output_path := tile_output_path save_path project_name tile_number in
      cv2_imwrite output_path out_img ;;
      print (MsgTileSaved tile_number output_path) ;;
      ret (tile_number + 1)
  else if count_bands =? 3 then
    let out_img := np_transpose_1_2_0 tile_data in
    if negb (np_any out_img) then
      print (MsgTileEmpty tile_number) ;;
      ret (tile_number + 1)
    else
      let output_path := tile_output_path save_path project_name tile_number in
      cv2_imwrite output_path out_img ;;
      print (MsgTileSaved tile_number output_path) ;;
      ret (tile_number + 1)
  else
    print (MsgTileUnsupported tile_number count_bands) ;;
    ret (tile_number + 1).

(** Lines 54-113: the double loop, started at [tile_number]. *)
Definition tile_loop (src : DatasetReader) (save_path project_name : string)
    (tile_width_pixels w_tiles h_tiles : Z) (tile_number : Z) : M Z :=
  for_each (range h_tiles)
    (fun i tile_number =>
       for_each (range w_tiles)
         (fun j tile_number =>
            process_tile src save_path project_name tile_width_pixels i j tile_number)
         tile_number)
    tile_number.

(** Lines 23-113: the body of the [with] block. *)
Definition split_opened (src : DatasetReader) (tile_width_meters : float)
    (save_path project_name : string) : M unit :=
  let img_width := ds_width src in
  let img_height := ds_height src in
  let count_bands := ds_count src in
  let transform := ds_transform src in
  let pixel_width_meters := SFabs (aff_a transform) in
  let pixel_height_meters := SFabs (aff_e transform) in
  when (float_eq_zero pixel_width_meters || float_eq_zero pixel_height_meters)
       (raise InvalidResolutionError) ;;
  quotient <- lift (py_truediv tile_width_meters pixel_width_meters) ;;
  tile_width_pixels <- lift (math_ceil quotient) ;;
  print MsgMetaHeader ;;
  print (MsgMetaSize img_width img_height) ;;
  print (MsgMetaBands count_bands) ;;
  print (MsgMetaResolution pixel_width_meters pixel_height_meters) ;;
  print (MsgMetaTile tile_width_meters tile_width_pixels) ;;
  print MsgMetaDtypes ;;
  print MsgMetaProfile ;;
  print MsgMetaFooter ;;
  w_tiles <- lift (py_floordiv (img_width + tile_width_pixels - 1) tile_width_pixels) ;;
  h_tiles <- lift (py_floordiv (img_height + tile_width_pixels - 1) tile_width_pixels) ;;
  let n_tiles := w_tiles * h_tiles in
  print (MsgCreating n_tiles w_tiles h_tiles) ;;
  let tile_number := 0 in
  tile_loop src save_path project_name tile_width_pixels w_tiles h_tiles tile_number ;;
  ret tt.

(** Lines 10-115. *)
Definition split_image (w : world) (image_path : string) (tile_width_meters : float)
    (save_path project_name : string) : M unit :=
  print (MsgProcessing image_path tile_width_meters) ;;
  when (negb (os_path_isfile w image_path))
       (raise (NotFoundError image_path)) ;;
  when (negb (os_path_exists w save_path))
       (print MsgDirWarning ;; emit (MakeDirs save_path)) ;;
  with_rasterio_open w image_path
    (fun src => split_opened src tile_width_meters save_path project_name) ;;
  print MsgDone.

(* ================================================================== *)
(** * Directory creation that can fail *)

(** [os.makedirs(path)].  The empty path is refused with
    [FileNotFoundError]; any other path is created unless the operating
    system reports an error, which [makedirs_error] gives. *)
Definition os_makedirs (makedirs_error : string -> option exception)
    (path : string) : M unit :=
  if String.eqb path EmptyString then
    raise (FileNotFoundError "[Errno 2] No such file or directory: ''")
  else
    match makedirs_error path with
    | Some e => raise e
    | None => emit (MakeDirs path)
    end.

(** Lines 10-115, with an [os.makedirs] that can raise. *)
Definition split_image_os (w : world) (makedirs_error : string -> option exception)
    (image_path : string) (tile_width_meters : float)
    (save_path project_name : string) : M unit :=
  print (MsgProcessing image_path tile_width_meters) ;;
  when (negb (os_path_isfile w image_path))
       (raise (NotFoundError image_path)) ;;
  when (negb (os_path_exists w save_path))
       (print MsgDirWarning ;; os_makedirs makedirs_error save_path) ;;
  with_rasterio_open w image_path
    (fun src => split_opened src tile_width_meters save_path project_name) ;;
  print MsgDone.

(* ================================================================== *)
(** * Observations on a trace *)

(** The windows read, in order. *)
Definition reads (t : list event) : list Window :=
  flat_map (fun ev => match ev with Read win => [win] | _ => [] end) t.

(** The files written, in order. *)
Definition written (t : list event) : list (string * ndarray3) :=
  flat_map (fun ev => match ev with ImWrite p img => [(p, img)] | _ => [] end) t.

(** The tile indices announced on the console, in order: every path
    through the loop body prints exactly one message carrying the current
    [tile_number]. *)
Definition tile_indices (t : list event) : list Z :=
  flat_map (fun ev =>
              match ev with
              | Print (MsgTileEmptyAlpha n) | Print (MsgTileEmpty n)
              | Print (MsgTileSaved n _) | Print (MsgTileUnsupported n _) => [n]
              | _ => []
              end) t.

(** The events that touch the file system or the raster (everything but
    console output). *)
Definition fs_effects (t : list event) : list event :=
  filter (fun ev => match ev with Print _ => false | _ => true end) t.

(** The events that perform I/O on the raster. *)
Definition raster_io (t : list event) : list event :=
  filter (fun ev => match ev with Open _ | Close _ | Read _ => true | _ => false end) t.

(* ================================================================== *)
(** * Vocabulary of the specification *)

(** [n = ceil(a / b)] for integers: [b] is not zero and [n - 1 < a / b <= n]. *)
Definition is_ceil_div (a b n : Z) : Prop :=
  (0 < b /\ (n - 1) * b < a <= n * b) \/
  (b < 0 /\ n * b <= a < (n - 1) * b).

(** [n] is the least integer not below the finite float [x], whose value
    is [(-1)^s * m * 2^e]. *)
Definition is_ceil_of_float (x : float) (n : Z) : Prop :=
  match x with
  | S754_zero _ => n = 0
  | S754_finite s m e =>
      let v := cond_Zopp s (Zpos m) in
      (n - 1) * 2 ^ Z.max 0 (- e) < v * 2 ^ Z.max 0 e <= n * 2 ^ Z.max 0 (- e)
  | _ => False
  end.

(** The float is finite and not zero. *)
Definition finite_nonzero (x : float) : bool :=
  match x with
  | S754_finite _ _ _ => true
  | _ => false
  end.

(** The [h] x [w] array whose entry in row [r] and column [c] is [f r c]. *)
Definition grid {A} (h w : Z) (f : Z -> Z -> A) : list (list A) :=
  map (fun r => map (fun c => f r c) (range w)) (range h).

(** The pixel of a written 4-channel tile at row [r], column [c] of the
    window: source bands 2, 1, 0, 3. *)
Definition pixel_2103 (src : DatasetReader) (win : Window) (r c : Z) : list Z :=
  map (fun b => ds_sample src b (row_off win + r) (col_off win + c)) [2; 1; 0; 3].

(** The pixel of a written 3-channel tile: source bands 0, 1, 2. *)
Definition pixel_012 (src : DatasetReader) (win : Window) (r c : Z) : list Z :=
  map (fun b => ds_sample src b (row_off win + r) (col_off win + c)) [0; 1; 2].

(** Every sample of band [b] inside the window is zero. *)
Definition band_all_zero (src : DatasetReader) (win : Window) (b : Z) : Prop :=
  forall r c, 0 <= r < height win -> 0 <= c < width win ->
    ds_sample src b (row_off win + r) (col_off win + c) = 0.

(** The windows of a [h_tiles] x [w_tiles] grid in row-major order. *)
Definition row_major_windows (img_width img_height tile_width_pixels w_tiles h_tiles : Z)
  : list Window :=
  flat_map (fun i =>
              map (fun j => tile_window img_width img_height tile_width_pixels i j)
                  (range w_tiles))
           (range h_tiles).

(** [count_from s k] is [s, s+1, ..., s+k-1]. *)
Definition count_from (s : Z) (k : nat) : list Z :=
  map (fun d => s + Z.of_nat d) (seq 0 k).

(** [visits m s ws]: started with tile index [s], the computation [m]
    completes normally, reads exactly the windows [ws] in order, announces
    the indices [s, s+1, ...] one per window, and yields [s + |ws|]. *)
Definition visits (m : M Z) (s : Z) (ws : list Window) : Prop :=
  fst m = Ok (s + Z.of_nat (List.length ws)) /\
  reads (snd m) = ws /\
  tile_indices (snd m) = count_from s (List.length ws).

(** The eight lines of the metadata summary. *)
Definition metadata_prints (src : DatasetReader) (tile_width_meters : float)
    (tile_width_pixels : Z) : list event :=
  [Print MsgMetaHeader;
   Print (MsgMetaSize (ds_width src) (ds_height src));
   Print (MsgMetaBands (ds_count src));
   Print (MsgMetaResolution (SFabs (aff_a (ds_transform src)))
                            (SFabs (aff_e (ds_transform src))));
   Print (MsgMetaTile tile_width_meters tile_width_pixels);
   Print MsgMetaDtypes; Print MsgMetaProfile; Print MsgMetaFooter].

(** What is printed and done before the raster is opened, once the input
    file is known to exist. *)
Definition preamble (w : world) (image_path : string) (t : float)
    (save_path : string) : list event :=
  Print (MsgProcessing image_path t) ::
  (if os_path_exists w save_path then []
   else [Print MsgDirWarning; MakeDirs save_path]).

(** The inputs on which the run is meant to succeed: the input file exists
    and opens as a raster of non-negative dimensions, the vertical
    resolution is not zero, the tile size and the horizontal resolution are
    positive, and their floating-point quotient is a finite non-zero
    number (it neither underflows to zero nor overflows). *)
Definition valid_input (w : world) (image_path : string) (t : float)
    (src : DatasetReader) : Prop :=
  os_path_isfile w image_path = true /\
  rasterio_open w image_path = Some src /\
  0 <= ds_width src /\ 0 <= ds_height src /\
  float_eq_zero (SFabs (aff_e (ds_transform src))) = false /\
  float_pos t = true /\
  float_pos (SFabs (aff_a (ds_transform src))) = true /\
  finite_nonzero (SFdiv prec emax t (SFabs (aff_a (ds_transform src)))) = true.

(* ================================================================== *)
(** * Example inputs *)

Definition ex_affine (a e : float) : Affine :=
  mkAffine a (S754_zero false) (S754_zero false) (S754_zero false) e (S754_zero false).

(** 0.5, 2.0, 100.0, 0.1 and the smallest positive binary64 number. *)
Definition f_half : float := b64 1 (-1).
Definition f_two : float := b64 2 0.
Definition f_hundred : float := b64 100 0.
Definition f_tenth : float := S754_finite false 7205759403792794 (-56).
Definition f_tiny : float := b64 1 (-1074).

(** Samples that vanish in the two leftmost columns; band 3 is opaque
    elsewhere. *)
Definition ex_sample (b r c : Z) : Z :=
  if c <? 2 then 0 else if b =? 3 then 255 else 100 * b + 10 * r + c.

(** A north-up 5 x 3 raster at 0.5 units per pixel. *)
Definition ex_small (count : Z) : DatasetReader :=
  mkDataset 5 3 count (ex_affine f_half (SFopp f_half)) ex_sample.

(** A 500 x 500 raster at 0.5 units per pixel. *)
Definition ex_large : DatasetReader :=
  mkDataset 500 500 3 (ex_affine f_half (SFopp f_half)) ex_sample.

(** A 500 x 500 raster at 2 units per pixel. *)
Definition ex_coarse : DatasetReader :=
  mkDataset 500 500 3 (ex_affine f_two (SFopp f_two)) ex_sample.

(** A raster whose transform has a zero vertical scale. *)
Definition ex_flat : DatasetReader :=
  mkDataset 5 3 3 (ex_affine f_half (S754_zero true)) ex_sample.

(** A world with one input file, [ortho.tif], holding [src], and an
    existing directory [tiles]. *)
Definition ex_world (src : DatasetReader) : world :=
  mkWorld (fun p => String.eqb p "ortho.tif")
          (fun p => String.eqb p "tiles")
          (fun p => if String.eqb p "ortho.tif" then Some src else None).

(* ================================================================== *)
(** * The claims as stated, where the code departs from them *)

(** The grid of a run is the one the three formulas give: the tile size
    in pixels is the ceiling of the quotient, the grid dimensions are the
    ceilings of the image dimensions over it, the run announces that grid
    and reads its windows. *)
Definition grid_computed (src : DatasetReader) (t : float) (run : M unit) : Prop :=
  exists tp w_tiles h_tiles,
    math_ceil (SFdiv prec emax t (SFabs (aff_a (ds_transform src)))) = Ok tp /\
    is_ceil_of_float (SFdiv prec emax t (SFabs (aff_a (ds_transform src)))) tp /\
    is_ceil_div (ds_width src) tp w_tiles /\
    is_ceil_div (ds_height src) tp h_tiles /\
    fst run = Ok tt /\
    In (Print (MsgMetaTile t tp)) (snd run) /\
    In (Print (MsgCreating (w_tiles * h_tiles) w_tiles h_tiles)) (snd run) /\
    reads (snd run) =
      row_major_windows (ds_width src) (ds_height src) tp w_tiles h_tiles.

(** The tile size in pixels is at least 1 and the two floor divisions
    that compute the grid dimensions are defined. *)
Definition tile_px_at_least_one (t pw : float) : Prop :=
  exists tp,
    math_ceil (SFdiv prec emax t pw) = Ok tp /\ 1 <= tp /\
    forall dim, py_floordiv (dim + tp - 1) tp = Ok ((dim + tp - 1) / tp).

(* ================================================================== *)
(** * Further observations *)

(** The save notices, in order: the tile index and the path announced. *)
Definition saved (t : list event) : list (Z * string) :=
  flat_map (fun ev =>
              match ev with
              | Print (MsgTileSaved n p) => [(n, p)]
              | _ => []
              end) t.

(** The indices of the tiles announced as skipped, in order. *)
Definition skipped (t : list event) : list Z :=
  flat_map (fun ev =>
              match ev with
              | Print (MsgTileEmptyAlpha n) | Print (MsgTileEmpty n)
              | Print (MsgTileUnsupported n _) => [n]
              | _ => []
              end) t.

(** The directories created, in order. *)
Definition made_dirs (t : list event) : list string :=
  flat_map (fun ev => match ev with MakeDirs p => [p] | _ => [] end) t.

(** The pixel in row [r] and column [c] of the image lies in the window. *)
Definition in_window (win : Window) (r c : Z) : Prop :=
  row_off win <= r < row_off win + height win /\
  col_off win <= c < col_off win + width win.

(** The array has [rows] rows of [cols] pixels of [chans] samples each. *)
Definition image_shape (img : ndarray3) (rows cols chans : Z) : Prop :=
  Z.of_nat (List.length img) = rows /\
  Forall (fun row =>
            Z.of_nat (List.length row) = cols /\
            Forall (fun px => Z.of_nat (List.length px) = chans) row) img.

(** The four messages printed by the loop body. *)
Definition is_tile_message (m : message) : bool :=
  match m with
  | MsgTileEmptyAlpha _ | MsgTileEmpty _ | MsgTileSaved _ _
  | MsgTileUnsupported _ _ => true
  | _ => false
  end.

(** The events emitted outside the loop body. *)
Definition outside_loop (ev : event) : Prop :=
  match ev with
  | Print m => is_tile_message m = false
  | MakeDirs _ | Open _ | Close _ => True
  | Read _ | ImWrite _ _ => False
  end.

(* ================================================================== *)
(** * Proof automation *)

Ltac run_monad :=
  unfold src_read, cv2_imwrite, print, when, lift, raise, emit, ret, bind;
  cbn [app fst snd].

(* ================================================================== *)
(** * Floats and [math.ceil] *)

Lemma float_pos_cases (x : float) :
  float_pos x = true ->
  x = S754_infinity false \/ exists m e, x = S754_finite false m e.
Proof.
  destruct x as [s | s | | s m e]; cbn; try discriminate.
  - destruct s; cbn; [discriminate | auto].
  - destruct s; cbn; [discriminate | eauto].
Qed.

Lemma float_eq_zero_cases (x : float) :
  float_eq_zero x = true <-> exists s, x = S754_zero s.
Proof.
  split.
  - destruct x as [s | s | | s m e]; cbn; try discriminate; eauto.
    + destruct s; discriminate.
    + destruct s; discriminate.
  - intros [s ->]. reflexivity.
Qed.

Lemma float_pos_not_zero (x : float) :
  float_pos x = true -> float_eq_zero x = false.
Proof.
  intros H. destruct (float_pos_cases x H) as [-> | (m & e & ->)]; reflexivity.
Qed.

(** Shifting a non-negative mantissa to the right keeps it non-negative. *)
Lemma shr_1_nonneg mrs : 0 <= shr_m mrs -> 0 <= shr_m (shr_1 mrs).
Proof.
  destruct mrs as [m r s]. cbn.
  destruct m as [| p | p]; cbn; try lia; destruct p; cbn; lia.
Qed.

Lemma iter_shr_1_nonneg p : forall mrs,
  0 <= shr_m mrs -> 0 <= shr_m (iter_pos shr_1 p mrs).
Proof.
  induction p as [p IH | p IH |]; intros mrs H; cbn.
  - apply IH, IH, shr_1_nonneg, H.
  - apply IH, IH, H.
  - apply shr_1_nonneg, H.
Qed.

Lemma shr_fexp_nonneg m e l :
  0 <= m -> 0 <= shr_m (fst (shr_fexp prec emax m e l)).
Proof.
  intros Hm. unfold shr_fexp, shr.
  assert (H0 : 0 <= shr_m (shr_record_of_loc m l)).
  { destruct l as [| c]; [| destruct c]; cbn; exact Hm. }
  destruct (fexp prec emax (Zdigits2 m + e) - e) as [| p | p]; cbn [fst]; auto.
  apply iter_shr_1_nonneg, H0.
Qed.

Lemma round_nearest_even_nonneg m l : 0 <= m -> 0 <= round_nearest_even m l.
Proof.
  intros Hm. unfold round_nearest_even.
  destruct l as [| c]; [| destruct c]; try lia.
  destruct (Z.even m); lia.
Qed.

(** Rounding a non-negative mantissa gives a zero, a finite float or an
    infinity of the requested sign, never NaN. *)
Lemma binary_round_aux_cases s m e l :
  0 <= m ->
  let r := binary_round_aux prec emax s m e l in
  r = S754_zero s \/ r = S754_infinity s \/ exists m' e', r = S754_finite s m' e'.
Proof.
  intros Hm. cbv zeta. unfold binary_round_aux.
  pose proof (shr_fexp_nonneg m e l Hm) as H1.
  destruct (shr_fexp prec emax m e l) as [mrs' e'] eqn:E1. cbn [fst] in H1.
  pose proof (shr_fexp_nonneg
                (round_nearest_even (shr_m mrs') (loc_of_shr_record mrs')) e' loc_Exact
                (round_nearest_even_nonneg _ _ H1)) as H2.
  destruct (shr_fexp prec emax (round_nearest_even (shr_m mrs') (loc_of_shr_record mrs'))
              e' loc_Exact) as [mrs'' e''] eqn:E2.
  cbn [fst] in H2.
  destruct (shr_m mrs'') as [| p | p]; [auto | | lia].
  destruct (e'' <=? emax - prec); eauto.
Qed.

Lemma SFdiv_core_binary_nonneg mx ex my ey :
  0 <= fst (fst (SFdiv_core_binary prec emax (Zpos mx) ex (Zpos my) ey)).
Proof.
  unfold SFdiv_core_binary.
  set (s := ex - ey - _).
  set (m' := match s with Z0 => Zpos mx | Zpos _ => Z.shiftl (Zpos mx) s | Zneg _ => 0 end).
  assert (Hm' : 0 <= m').
  { subst m'. destruct s; try lia. apply Z.shiftl_nonneg. lia. }
  pose proof (Z_div_mod m' (Zpos my) eq_refl) as Hdm.
  destruct (Z.div_eucl m' (Zpos my)) as [q r]. cbn [fst].
  destruct Hdm as [Heq Hr]. nia.
Qed.

(** Dividing two positive finite floats never yields NaN or a negative
    result: the quotient is [+0] (underflow), [+inf] (overflow) or a
    positive finite float. *)
Lemma SFdiv_pos_finite_cases mx ex my ey :
  let q := SFdiv prec emax (S754_finite false mx ex) (S754_finite false my ey) in
  q = S754_zero false \/ q = S754_infinity false \/
  exists m e, q = S754_finite false m e.
Proof.
  cbv zeta. unfold SFdiv.
  pose proof (SFdiv_core_binary_nonneg mx ex my ey) as H.
  destruct (SFdiv_core_binary prec emax (Zpos mx) ex (Zpos my) ey) as [[mz ez] lz].
  cbn [fst] in H. cbn [xorb].
  apply (binary_round_aux_cases false mz ez lz H).
Qed.

(** A finite non-zero quotient of two positive floats is positive. *)
Lemma SFdiv_pos_finite_nonzero (x y : float) :
  float_pos x = true -> float_pos y = true ->
  finite_nonzero (SFdiv prec emax x y) = true ->
  exists m e, SFdiv prec emax x y = S754_finite false m e.
Proof.
  intros Hx Hy Hq.
  destruct (float_pos_cases x Hx) as [-> | (mx & ex & ->)];
    destruct (float_pos_cases y Hy) as [-> | (my & ey & ->)];
    try (cbn in Hq; discriminate).
  destruct (SFdiv_pos_finite_cases mx ex my ey) as [E | [E | E]];
    [rewrite E in Hq; discriminate | rewrite E in Hq; discriminate | exact E].
Qed.

(** [math.ceil] of a finite float is its ceiling. *)
Lemma math_ceil_is_ceiling s m e :
  exists n, math_ceil (S754_finite s m e) = Ok n /\
            is_ceil_of_float (S754_finite s m e) n.
Proof.
  cbn [math_ceil is_ceil_of_float]. set (v := cond_Zopp s (Zpos m)).
  destruct (Z.leb_spec 0 e) as [He | He].
  - exists (v * 2 ^ e). split; [reflexivity |].
    rewrite (Z.max_r 0 e) by lia. rewrite (Z.max_l 0 (- e)) by lia.
    rewrite Z.pow_0_r. lia.
  - exists (- (- v / 2 ^ (- e))). split; [reflexivity |].
    rewrite (Z.max_l 0 e) by lia. rewrite (Z.max_r 0 (- e)) by lia.
    rewrite Z.pow_0_r.
    assert (Hp : 0 < 2 ^ (- e)) by (apply Z.pow_pos_nonneg; lia).
    pose proof (Z.div_mod (- v) (2 ^ (- e)) ltac:(lia)) as Hdm.
    pose proof (Z.mod_pos_bound (- v) (2 ^ (- e)) Hp) as Hb.
    nia.
Qed.

(** [math.ceil] of a positive finite float is at least 1. *)
Lemma math_ceil_pos m e :
  exists n, math_ceil (S754_finite false m e) = Ok n /\ 1 <= n.
Proof.
  destruct (math_ceil_is_ceiling false m e) as (n & Hn & Hc).
  exists n. split; [exact Hn |].
  cbn [is_ceil_of_float cond_Zopp] in Hc.
  assert (Hp : 0 < 2 ^ Z.max 0 e) by (apply Z.pow_pos_nonneg; lia).
  assert (Hq : 0 < 2 ^ Z.max 0 (- e)) by (apply Z.pow_pos_nonneg; lia).
  nia.
Qed.

(* ================================================================== *)
(** * Ranges and arrays *)

Lemma range_length n : List.length (range n) = Z.to_nat n.
Proof. unfold range. rewrite length_map, length_seq. reflexivity. Qed.

Lemma in_range x n : In x (range n) <-> 0 <= x < n.
Proof.
  unfold range. rewrite in_map_iff. split.
  - intros (k & <- & Hk). apply in_seq in Hk. lia.
  - intros Hx. exists (Z.to_nat x). split; [lia |]. apply in_seq. lia.
Qed.

Lemma nth_map_range {A} (g : Z -> A) n k d :
  (k < Z.to_nat n)%nat -> nth k (map g (range n)) d = g (Z.of_nat k).
Proof.
  intros Hk. unfold range. rewrite map_map.
  rewrite (nth_indep _ d (g (Z.of_nat 0%nat)))
    by (rewrite length_map, length_seq; exact Hk).
  rewrite (map_nth (fun x => g (Z.of_nat x))).
  rewrite seq_nth by exact Hk. reflexivity.
Qed.

Lemma grid_length {A} h w (f : Z -> Z -> A) :
  List.length (grid h w f) = Z.to_nat h.
Proof. unfold grid. rewrite length_map. apply range_length. Qed.

Lemma nth_grid {A} h w (f : Z -> Z -> A) r c d :
  (r < Z.to_nat h)%nat -> (c < Z.to_nat w)%nat ->
  nth c (nth r (grid h w f) []) d = f (Z.of_nat r) (Z.of_nat c).
Proof.
  intros Hr Hc. unfold grid.
  rewrite (nth_map_range (fun r => map (fun c => f r c) (range w))) by exact Hr.
  apply (nth_map_range (fun c => f (Z.of_nat r) c)). exact Hc.
Qed.

Lemma map_map_grid {A B} (g : A -> B) h w (f : Z -> Z -> A) :
  map (map g) (grid h w f) = grid h w (fun r c => g (f r c)).
Proof.
  unfold grid. rewrite map_map. apply map_ext. intros r.
  rewrite map_map. reflexivity.
Qed.

Lemma grid_ext {A} h w (f g : Z -> Z -> A) :
  (forall r c, 0 <= r < h -> 0 <= c < w -> f r c = g r c) ->
  grid h w f = grid h w g.
Proof.
  intros H. unfold grid. apply map_ext_in. intros r Hr.
  apply map_ext_in. intros c Hc. apply H; apply in_range; assumption.
Qed.

(** A windowed read is one grid per band. *)
Lemma read_window_grid src win :
  read_window src win =
  map (fun b => grid (height win) (width win)
                  (fun r c => ds_sample src b (row_off win + r) (col_off win + c)))
      (range (ds_count src)).
Proof. reflexivity. Qed.

(** Transposing band-major data of at least one band gives the grid of
    pixels, each pixel listing the bands in order. *)
Lemma np_transpose_grid h w (F : Z -> Z -> Z -> Z) (b0 : Z) (bs : list Z) :
  np_transpose_1_2_0 (map (fun b => grid h w (F b)) (b0 :: bs)) =
  grid h w (fun r c => map (fun b => F b r c) (b0 :: bs)).
Proof.
  unfold np_transpose_1_2_0.
  set (bands := map (fun b => grid h w (F b)) (b0 :: bs)).
  assert (HH : List.length (hd [] bands) = Z.to_nat h)
    by (subst bands; cbn [map hd]; apply grid_length).
  rewrite HH.
  destruct (Z.to_nat h) as [| h'] eqn:Eh.
  - unfold grid, range. rewrite Eh. reflexivity.
  - assert (HW : List.length (hd [] (hd [] bands)) = Z.to_nat w).
    { subst bands. cbn [map hd]. unfold grid at 1, range at 2. rewrite Eh.
      cbn [seq map hd]. rewrite length_map. apply range_length. }
    rewrite HW. rewrite <- Eh.
    unfold grid at 1, range. rewrite map_map. apply map_ext_in.
    intros r Hr. apply in_seq in Hr. rewrite map_map. apply map_ext_in.
    intros c Hc. apply in_seq in Hc.
    subst bands. rewrite map_map. apply map_ext. intros b.
    apply nth_grid; lia.
Qed.

Lemma np_all_eq_zero_grid h w (f : Z -> Z -> Z) :
  np_all_eq_zero (grid h w f) = true <->
  (forall r c, 0 <= r < h -> 0 <= c < w -> f r c = 0).
Proof.
  unfold np_all_eq_zero, grid. rewrite forallb_forall. split.
  - intros H r c Hr Hc.
    specialize (H (map (fun c => f r c) (range w))).
    rewrite forallb_forall in H.
    apply Z.eqb_eq, H.
    + apply in_map_iff. exists r. split; [reflexivity | apply in_range, Hr].
    + apply in_map_iff. exists c. split; [reflexivity | apply in_range, Hc].
  - intros H row Hrow. apply in_map_iff in Hrow. destruct Hrow as (r & <- & Hr).
    apply forallb_forall. intros v Hv. apply in_map_iff in Hv.
    destruct Hv as (c & <- & Hc). apply Z.eqb_eq, H; apply in_range; assumption.
Qed.

Lemma np_any_grid_false h w (f : Z -> Z -> list Z) :
  np_any (grid h w f) = false <->
  (forall r c, 0 <= r < h -> 0 <= c < w -> forall v, In v (f r c) -> v = 0).
Proof.
  unfold np_any, grid. split.
  - intros H r c Hr Hc v Hv.
    destruct (Z.eqb_spec v 0) as [E | E]; [exact E | exfalso].
    assert (Ht : existsb (existsb (existsb (fun v => negb (v =? 0))))
                   (map (fun r => map (fun c => f r c) (range w)) (range h)) = true).
    { apply existsb_exists. exists (map (fun c => f r c) (range w)). split.
      - apply in_map_iff. exists r. split; [reflexivity | apply in_range, Hr].
      - apply existsb_exists. exists (f r c). split.
        + apply in_map_iff. exists c. split; [reflexivity | apply in_range, Hc].
        + apply existsb_exists. exists v. split; [exact Hv |].
          apply negb_true_iff, Z.eqb_neq, E. }
    congruence.
  - intros H. apply not_true_is_false. intros Ht.
    apply existsb_exists in Ht. destruct Ht as (row & Hrow & Ht).
    apply in_map_iff in Hrow. destruct Hrow as (r & <- & Hr).
    apply existsb_exists in Ht. destruct Ht as (px & Hpx & Ht).
    apply in_map_iff in Hpx. destruct Hpx as (c & <- & Hc).
    apply existsb_exists in Ht. destruct Ht as (v & Hv & Ht).
    apply negb_true_iff, Z.eqb_neq in Ht. apply Ht.
    apply (H r c); [apply in_range, Hr | apply in_range, Hc | exact Hv].
Qed.

(** The image handed to the writer for a 4-band raster. *)
Lemma out_img_four_bands src win :
  ds_count src = 4 ->
  take_channels [2; 1; 0; 3]%nat (np_transpose_1_2_0 (read_window src win)) =
  grid (height win) (width win) (pixel_2103 src win).
Proof.
  intros Hc. rewrite read_window_grid, Hc.
  change (range 4) with [0; 1; 2; 3].
  rewrite (np_transpose_grid (height win) (width win)
             (fun b r c => ds_sample src b (row_off win + r) (col_off win + c))).
  unfold take_channels. rewrite map_map_grid. reflexivity.
Qed.

(** The image handed to the writer for a 3-band raster. *)
Lemma out_img_three_bands src win :
  ds_count src = 3 ->
  np_transpose_1_2_0 (read_window src win) =
  grid (height win) (width win) (pixel_012 src win).
Proof.
  intros Hc. rewrite read_window_grid, Hc.
  change (range 3) with [0; 1; 2].
  apply (np_transpose_grid (height win) (width win)
           (fun b r c => ds_sample src b (row_off win + r) (col_off win + c))).
Qed.

Lemma alpha_channel_all_zero src win :
  np_all_eq_zero (channel 3 (grid (height win) (width win) (pixel_2103 src win))) = true <->
  band_all_zero src win 3.
Proof.
  unfold channel. rewrite map_map_grid. rewrite np_all_eq_zero_grid.
  unfold band_all_zero. reflexivity.
Qed.

Lemma three_band_any_false src win :
  np_any (grid (height win) (width win) (pixel_012 src win)) = false <->
  (forall b, 0 <= b < 3 -> band_all_zero src win b).
Proof.
  rewrite np_any_grid_false. unfold band_all_zero, pixel_012. split.
  - intros H b Hb r c Hr Hc. apply (H r c Hr Hc).
    assert (Eb : b = 0 \/ b = 1 \/ b = 2) by lia.
    destruct Eb as [-> | [-> | ->]]; cbn; auto.
  - intros H r c Hr Hc v Hv. cbn in Hv.
    destruct Hv as [<- | [<- | [<- | []]]]; apply H; lia || assumption.
Qed.

(* ================================================================== *)
(** * The loop body *)

(** The loop body written out, branch by branch. *)
Lemma process_tile_eq src save_path project_name tp i j n :
  process_tile src save_path project_name tp i j n =
  let win := tile_window (ds_width src) (ds_height src) tp i j in
  let path := tile_output_path save_path project_name n in
  if ds_count src =? 4 then
    let out_img := take_channels [2; 1; 0; 3]%nat (np_transpose_1_2_0 (read_window src win)) in
    if np_all_eq_zero (channel 3 out_img)
    then (Ok (n + 1), [Read win; Print (MsgTileEmptyAlpha n)])
    else (Ok (n + 1), [Read win; ImWrite path out_img; Print (MsgTileSaved n path)])
  else if ds_count src =? 3 then
    let out_img := np_transpose_1_2_0 (read_window src win) in
    if np_any out_img
    then (Ok (n + 1), [Read win; ImWrite path out_img; Print (MsgTileSaved n path)])
    else (Ok (n + 1), [Read win; Print (MsgTileEmpty n)])
  else (Ok (n + 1), [Read win; Print (MsgTileUnsupported n (ds_count src))]).
Proof.
  unfold process_tile. run_monad. cbv zeta.
  destruct (ds_count src =? 4).
  - destruct (np_all_eq_zero _); reflexivity.
  - destruct (ds_count src =? 3).
    + destruct (np_any _); reflexivity.
    + reflexivity.
Qed.

(** Whatever the band count and the data, the loop body reads exactly the
    window of its tile, announces exactly the current index, completes
    normally and yields the index plus one. *)
Lemma process_tile_visit src save_path project_name tp i j n :
  let run := process_tile src save_path project_name tp i j n in
  fst run = Ok (n + 1) /\
  reads (snd run) = [tile_window (ds_width src) (ds_height src) tp i j] /\
  tile_indices (snd run) = [n].
Proof.
  cbv zeta. rewrite process_tile_eq. cbv zeta.
  destruct (ds_count src =? 4).
  - destruct (np_all_eq_zero _); cbn; auto.
  - destruct (ds_count src =? 3).
    + destruct (np_any _); cbn; auto.
    + cbn; auto.
Qed.

(** With an unsupported band count the loop body writes nothing. *)
Lemma process_tile_unsupported src save_path project_name tp i j n :
  ds_count src <> 3 -> ds_count src <> 4 ->
  process_tile src save_path project_name tp i j n =
  (Ok (n + 1),
   [Read (tile_window (ds_width src) (ds_height src) tp i j);
    Print (MsgTileUnsupported n (ds_count src))]).
Proof.
  intros H3 H4. rewrite process_tile_eq. cbv zeta.
  apply Z.eqb_neq in H3, H4. rewrite H3, H4. reflexivity.
Qed.

(* ================================================================== *)
(** * Loops *)

Lemma reads_app t1 t2 : reads (t1 ++ t2) = (reads t1 ++ reads t2)%list.
Proof. apply flat_map_app. Qed.

Lemma written_app t1 t2 : written (t1 ++ t2) = (written t1 ++ written t2)%list.
Proof. apply flat_map_app. Qed.

Lemma tile_indices_app t1 t2 :
  tile_indices (t1 ++ t2) = (tile_indices t1 ++ tile_indices t2)%list.
Proof. apply flat_map_app. Qed.

Lemma count_from_S s k : count_from s (S k) = s :: count_from (s + 1) k.
Proof.
  unfold count_from. cbn [seq map]. f_equal; [lia |].
  rewrite <- seq_shift, map_map. apply map_ext. intros d. lia.
Qed.

Lemma count_from_app k1 : forall s k2,
  count_from s (k1 + k2) =
  (count_from s k1 ++ count_from (s + Z.of_nat k1) k2)%list.
Proof.
  induction k1 as [| k1 IH]; intros s k2.
  - change (Z.of_nat 0) with 0. rewrite Z.add_0_r. reflexivity.
  - cbn [Nat.add]. rewrite !count_from_S, IH. cbn [app]. do 3 f_equal. lia.
Qed.

Lemma for_each_visits {A} (body : A -> Z -> M Z) (W : A -> list Window) :
  (forall x s, visits (body x s) s (W x)) ->
  forall xs s, visits (for_each xs body s) s (flat_map W xs).
Proof.
  intros Hbody. induction xs as [| x rest IH]; intros s.
  - cbn. unfold visits. cbn. rewrite Z.add_0_r. auto.
  - cbn [for_each flat_map].
    destruct (Hbody x s) as (Hf & Hr & Hi).
    destruct (body x s) as [[s' | e] t]; cbn [fst snd] in Hf, Hr, Hi;
      [| discriminate].
    injection Hf as ->.
    destruct (IH (s + Z.of_nat (List.length (W x)))) as (Hf' & Hr' & Hi').
    unfold bind.
    destruct (for_each rest body (s + Z.of_nat (List.length (W x)))) as [r t'].
    cbn [fst snd] in *. unfold visits. cbn [fst snd].
    rewrite reads_app, tile_indices_app, length_app, count_from_app, Nat2Z.inj_add.
    rewrite Hf', Hr, Hr', Hi, Hi'. rewrite Z.add_assoc. auto.
Qed.

Lemma for_each_no_writes {A S} (body : A -> S -> M S) :
  (forall x s, written (snd (body x s)) = []) ->
  forall xs s, written (snd (for_each xs body s)) = [].
Proof.
  intros Hbody. induction xs as [| x rest IH]; intros s; [reflexivity |].
  cbn [for_each]. specialize (Hbody x s). unfold bind.
  destruct (body x s) as [[s' | e] t]; cbn [snd] in *; [| exact Hbody].
  specialize (IH s'). destruct (for_each rest body s') as [r t'].
  cbn [snd] in *. rewrite written_app, Hbody, IH. reflexivity.
Qed.

Lemma flat_map_single {A B} (f : A -> B) (l : list A) :
  flat_map (fun x => [f x]) l = map f l.
Proof. induction l as [| x l IH]; cbn; [| rewrite IH]; reflexivity. Qed.

Lemma row_major_windows_length W H tp w h :
  List.length (row_major_windows W H tp w h) = (Z.to_nat h * Z.to_nat w)%nat.
Proof.
  unfold row_major_windows.
  rewrite <- (range_length h).
  induction (range h) as [| i rest IH]; [reflexivity |].
  cbn [flat_map List.length]. rewrite length_app, length_map, range_length, IH.
  reflexivity.
Qed.

(** The double loop visits the windows of the grid in row-major order. *)
Lemma tile_loop_visits src save_path project_name tp w h s :
  visits (tile_loop src save_path project_name tp w h s) s
         (row_major_windows (ds_width src) (ds_height src) tp w h).
Proof.
  unfold tile_loop, row_major_windows.
  apply (for_each_visits
           (fun i n => for_each (range w)
                         (fun j n => process_tile src save_path project_name tp i j n) n)
           (fun i => map (fun j => tile_window (ds_width src) (ds_height src) tp i j)
                         (range w))).
  intros i n. rewrite <- flat_map_single.
  apply (for_each_visits
           (fun j n => process_tile src save_path project_name tp i j n)
           (fun j => [tile_window (ds_width src) (ds_height src) tp i j])).
  intros j n'. unfold visits. cbn [List.length].
  pose proof (process_tile_visit src save_path project_name tp i j n') as (Hf & Hr & Hi).
  rewrite Hf, Hr, Hi. change (Z.of_nat 1) with 1.
  unfold count_from. cbn [seq map]. change (Z.of_nat 0) with 0.
  rewrite Z.add_0_r. auto.
Qed.

(** With an unsupported band count the double loop writes nothing. *)
Lemma tile_loop_unsupported_no_writes src save_path project_name tp w h s :
  ds_count src <> 3 -> ds_count src <> 4 ->
  written (snd (tile_loop src save_path project_name tp w h s)) = [].
Proof.
  intros H3 H4. unfold tile_loop.
  apply for_each_no_writes. intros i n.
  apply for_each_no_writes. intros j n'.
  rewrite process_tile_unsupported by assumption. reflexivity.
Qed.

(* ================================================================== *)
(** * [split_image], written out *)

Lemma split_opened_eq src t save_path project_name :
  split_opened src t save_path project_name =
  let pw := SFabs (aff_a (ds_transform src)) in
  let ph := SFabs (aff_e (ds_transform src)) in
  if float_eq_zero pw || float_eq_zero ph then (Raise InvalidResolutionError, [])
  else
    match math_ceil (SFdiv prec emax t pw) with
    | Raise e => (Raise e, [])
    | Ok tp =>
        if tp =? 0 then
          (Raise (ZeroDivisionError "integer division or modulo by zero"),
           metadata_prints src t tp)
        else
          let w_tiles := (ds_width src + tp - 1) / tp in
          let h_tiles := (ds_height src + tp - 1) / tp in
          let trace :=
            (metadata_prints src t tp ++
             [Print (MsgCreating (w_tiles * h_tiles) w_tiles h_tiles)] ++
             snd (tile_loop src save_path project_name tp w_tiles h_tiles 0))%list in
          (Ok tt, trace)
    end.
Proof.
  unfold split_opened. cbv zeta.
  destruct (float_eq_zero (SFabs (aff_a (ds_transform src)))) eqn:Ea;
    [reflexivity |].
  destruct (float_eq_zero (SFabs (aff_e (ds_transform src)))) eqn:Ee;
    [reflexivity |].
  cbn [orb]. unfold py_truediv. rewrite Ea. run_monad.
  destruct (math_ceil (SFdiv prec emax t (SFabs (aff_a (ds_transform src)))))
    as [tp | e]; [| reflexivity].
  unfold py_floordiv.
  destruct (tp =? 0); [reflexivity |].
  pose proof (tile_loop_visits src save_path project_name tp
                ((ds_width src + tp - 1) / tp) ((ds_height src + tp - 1) / tp) 0)
    as (Hf & _).
  destruct (tile_loop src save_path project_name tp
              ((ds_width src + tp - 1) / tp) ((ds_height src + tp - 1) / tp) 0)
    as [[n | e] tr]; cbn [fst snd] in *; [| discriminate].
  unfold metadata_prints. cbn [app]. rewrite app_nil_r. reflexivity.
Qed.

Lemma split_image_eq w image_path t save_path project_name :
  split_image w image_path t save_path project_name =
  if os_path_isfile w image_path then
    match rasterio_open w image_path with
    | None => (Raise (RasterioIOError image_path), preamble w image_path t save_path)
    | Some src =>
        match split_opened src t save_path project_name with
        | (Ok _, tr) =>
            (Ok tt,
             (preamble w image_path t save_path ++ [Open image_path] ++ tr ++
              [Close image_path; Print MsgDone])%list)
        | (Raise e, tr) =>
            (Raise e,
             (preamble w image_path t save_path ++ [Open image_path] ++ tr ++
              [Close image_path])%list)
        end
    end
  else (Raise (NotFoundError image_path), [Print (MsgProcessing image_path t)]).
Proof.
  unfold split_image, with_rasterio_open, preamble.
  destruct (os_path_isfile w image_path); [| reflexivity].
  destruct (os_path_exists w save_path);
    (destruct (rasterio_open w image_path) as [src |]; [| reflexivity]);
    run_monad; cbn [negb];
    destruct (split_opened src t save_path project_name) as [[[] | e] tr];
    cbn [app]; rewrite <- ?app_assoc; reflexivity.
Qed.

(** The whole trace of a run on a valid input. *)
Lemma split_image_valid w image_path t save_path project_name src :
  valid_input w image_path t src ->
  exists tp,
    math_ceil (SFdiv prec emax t (SFabs (aff_a (ds_transform src)))) = Ok tp /\
    1 <= tp /\
    let w_tiles := (ds_width src + tp - 1) / tp in
    let h_tiles := (ds_height src + tp - 1) / tp in
    split_image w image_path t save_path project_name =
    (Ok tt,
     (preamble w image_path t save_path ++ [Open image_path] ++
      (metadata_prints src t tp ++
       [Print (MsgCreating (w_tiles * h_tiles) w_tiles h_tiles)] ++
       snd (tile_loop src save_path project_name tp w_tiles h_tiles 0)) ++
      [Close image_path; Print MsgDone])%list).
Proof.
  intros (Hfile & Hopen & _ & _ & He & Ht & Hpw & Hq).
  destruct (SFdiv_pos_finite_nonzero _ _ Ht Hpw Hq) as (m & e & Eq).
  destruct (math_ceil_pos m e) as (tp & Hceil & Htp).
  exists tp. rewrite Eq. split; [exact Hceil |]. split; [exact Htp |].
  cbv zeta. rewrite split_image_eq, Hfile, Hopen, split_opened_eq. cbv zeta.
  rewrite (float_pos_not_zero _ Hpw), He. cbn [orb]. rewrite Eq, Hceil.
  replace (tp =? 0) with false by (symmetry; apply Z.eqb_neq; lia).
  reflexivity.
Qed.

Lemma ceil_div_spec a b : 1 <= b -> is_ceil_div a b ((a + b - 1) / b).
Proof.
  intros Hb. unfold is_ceil_div. left.
  pose proof (Z.div_mod (a + b - 1) b ltac:(lia)) as Hdm.
  pose proof (Z.mod_pos_bound (a + b - 1) b ltac:(lia)) as Hr.
  nia.
Qed.

Lemma ceil_div_nonneg a b : 1 <= b -> 0 <= a -> 0 <= (a + b - 1) / b.
Proof. intros Hb Ha. apply Z.div_pos; lia. Qed.

Lemma count_from_0_range n : count_from 0 (Z.to_nat n) = range n.
Proof. unfold count_from, range. apply map_ext. intros d. lia. Qed.

Lemma reads_preamble w image_path t save_path :
  reads (preamble w image_path t save_path) = [].
Proof. unfold preamble. destruct (os_path_exists w save_path); reflexivity. Qed.

Lemma tile_indices_preamble w image_path t save_path :
  tile_indices (preamble w image_path t save_path) = [].
Proof. unfold preamble. destruct (os_path_exists w save_path); reflexivity. Qed.

Lemma written_preamble w image_path t save_path :
  written (preamble w image_path t save_path) = [].
Proof. unfold preamble. destruct (os_path_exists w save_path); reflexivity. Qed.

(** What a run on a valid input lets one observe. *)
Lemma valid_run_observations w image_path t save_path project_name src :
  valid_input w image_path t src ->
  exists tp,
    math_ceil (SFdiv prec emax t (SFabs (aff_a (ds_transform src)))) = Ok tp /\
    1 <= tp /\
    let w_tiles := (ds_width src + tp - 1) / tp in
    let h_tiles := (ds_height src + tp - 1) / tp in
    let run := split_image w image_path t save_path project_name in
    fst run = Ok tt /\
    In (Print (MsgMetaTile t tp)) (snd run) /\
    In (Print (MsgCreating (w_tiles * h_tiles) w_tiles h_tiles)) (snd run) /\
    reads (snd run) =
      row_major_windows (ds_width src) (ds_height src) tp w_tiles h_tiles /\
    tile_indices (snd run) = range (w_tiles * h_tiles).
Proof.
  intros Hv.
  destruct (split_image_valid w image_path t save_path project_name src Hv)
    as (tp & Hceil & Htp & Hrun).
  destruct Hv as (_ & _ & HW & HH & _).
  exists tp. split; [exact Hceil |]. split; [exact Htp |].
  cbv zeta in *. rewrite Hrun. cbn [fst snd].
  set (w_tiles := (ds_width src + tp - 1) / tp) in *.
  set (h_tiles := (ds_height src + tp - 1) / tp) in *.
  pose proof (tile_loop_visits src save_path project_name tp w_tiles h_tiles 0)
    as (_ & Hr & Hi).
  split; [reflexivity |].
  split.
  { apply in_or_app. right. apply in_cons. apply in_or_app. left.
    apply in_or_app. left. unfold metadata_prints. cbn. tauto. }
  split.
  { apply in_or_app. right. apply in_cons. apply in_or_app. left.
    apply in_or_app. right. left. reflexivity. }
  split.
  - rewrite !reads_app, reads_preamble, Hr. cbn. apply app_nil_r.
  - rewrite !tile_indices_app, tile_indices_preamble, Hi. cbn.
    rewrite app_nil_r, row_major_windows_length.
    rewrite <- Z2Nat.inj_mul by (apply ceil_div_nonneg; assumption).
    rewrite Z.mul_comm. apply count_from_0_range.
Qed.

(** When the quotient of tile size and pixel width is not a finite
    non-zero float, a run that passes both validations stops before the
    grid is computed: a zero quotient gives [tile_px = 0] and the floor
    division raises, an infinite quotient or NaN cannot be converted by
    [math.ceil]. *)
Lemma split_image_degenerate_quotient w image_path t save_path project_name src :
  os_path_isfile w image_path = true ->
  rasterio_open w image_path = Some src ->
  float_eq_zero (SFabs (aff_a (ds_transform src))) = false ->
  float_eq_zero (SFabs (aff_e (ds_transform src))) = false ->
  let q := SFdiv prec emax t (SFabs (aff_a (ds_transform src))) in
  let run := split_image w image_path t save_path project_name in
  ((exists s, q = S754_zero s) ->
     fst run = Raise (ZeroDivisionError "integer division or modulo by zero")) /\
  ((exists s, q = S754_infinity s) ->
     fst run = Raise (OverflowError "cannot convert float infinity to integer")) /\
  (q = S754_nan ->
     fst run = Raise (ValueError "cannot convert float NaN to integer")) /\
  (finite_nonzero q = false -> reads (snd run) = []).
Proof.
  intros Hfile Hopen Ha He. cbv zeta.
  rewrite split_image_eq, Hfile, Hopen, split_opened_eq. cbv zeta.
  rewrite Ha, He. cbn [orb].
  destruct (SFdiv prec emax t (SFabs (aff_a (ds_transform src))))
    as [s | s | | s m e]; cbn [math_ceil finite_nonzero].
  - change (0 =? 0) with true. cbn [fst snd].
    repeat split; try reflexivity.
    + intros (s' & [=]).
    + discriminate.
    + intros _. rewrite !reads_app, reads_preamble. reflexivity.
  - cbn [fst snd]. repeat split; try reflexivity.
    + intros (s' & [=]).
    + discriminate.
    + intros _. rewrite !reads_app, reads_preamble. reflexivity.
  - cbn [fst snd]. repeat split; try reflexivity.
    + intros (s' & [=]).
    + intros (s' & [=]).
    + intros _. rewrite !reads_app, reads_preamble. reflexivity.
  - repeat split; try discriminate.
    + intros (s' & [=]).
    + intros (s' & [=]).
Qed.

(* ================================================================== *)
(** * Tile windows *)

Lemma tile_window_bounds W H tp i j :
  1 <= tp ->
  0 <= i < (H + tp - 1) / tp -> 0 <= j < (W + tp - 1) / tp ->
  let win := tile_window W H tp i j in
  col_off win = j * tp /\ row_off win = i * tp /\
  0 < width win <= tp /\ 0 < height win <= tp /\
  col_off win + width win <= W /\ row_off win + height win <= H /\
  (j < (W + tp - 1) / tp - 1 -> width win = tp) /\
  (i < (H + tp - 1) / tp - 1 -> height win = tp) /\
  (j = (W + tp - 1) / tp - 1 -> width win = W - tp * j) /\
  (i = (H + tp - 1) / tp - 1 -> height win = H - tp * i).
Proof.
  intros Htp Hi Hj. cbv zeta. unfold tile_window. cbn [col_off row_off width height].
  pose proof (ceil_div_spec W tp Htp) as [[_ HWc] | [Hneg _]]; [| lia].
  pose proof (ceil_div_spec H tp Htp) as [[_ HHc] | [Hneg _]]; [| lia].
  set (w_tiles := (W + tp - 1) / tp) in *.
  set (h_tiles := (H + tp - 1) / tp) in *.
  assert (Hx : j * tp + tp <= w_tiles * tp) by nia.
  assert (Hy : i * tp + tp <= h_tiles * tp) by nia.
  repeat split; try lia.
  - intros Hjj. assert (j * tp + tp <= (w_tiles - 1) * tp) by nia. lia.
  - intros Hii. assert (i * tp + tp <= (h_tiles - 1) * tp) by nia. lia.
Qed.


(* ================================================================== *)
(** * Grid computation *)

(** C1, as amended.  For every valid input (in particular: positive tile
    size, positive pixel width, and a floating-point quotient of the two
    that is finite and not zero) the grid is computed as
    [tile_px = ceil(tile_size / pixel_width)],
    [w_tiles = ceil(image_width / tile_px)],
    [h_tiles = ceil(image_height / tile_px)].  In particular a
    500 x 500 raster at 0.5 units per pixel cut with tile size 100 has
    [tile_px = 200] and a 3 x 3 grid of 9 tiles; tile 0 covers the window
    (0, 0, 200, 200) and tile 2 the window (400, 0, 100, 200). *)
Theorem grid_computation :
  (forall w image_path t save_path project_name src,
     valid_input w image_path t src ->
     grid_computed src t (split_image w image_path t save_path project_name)) /\
  (forall w image_path save_path project_name src,
     os_path_isfile w image_path = true ->
     rasterio_open w image_path = Some src ->
     ds_width src = 500 -> ds_height src = 500 ->
     SFabs (aff_a (ds_transform src)) = f_half ->
     float_eq_zero (SFabs (aff_e (ds_transform src))) = false ->
     let run := split_image w image_path f_hundred save_path project_name in
     fst run = Ok tt /\
     In (Print (MsgMetaTile f_hundred 200)) (snd run) /\
     In (Print (MsgCreating 9 3 3)) (snd run) /\
     combine (tile_indices (snd run)) (reads (snd run)) =
       [(0, mkWindow 0 0 200 200); (1, mkWindow 200 0 200 200);
        (2, mkWindow 400 0 100 200);
        (3, mkWindow 0 200 200 200); (4, mkWindow 200 200 200 200);
        (5, mkWindow 400 200 100 200);
        (6, mkWindow 0 400 200 100); (7, mkWindow 200 400 200 100);
        (8, mkWindow 400 400 100 100)]).
Proof.
  split.
  - intros w image_path t save_path project_name src Hv.
    destruct (valid_run_observations w image_path t save_path project_name src Hv)
      as (tp & Hceil & Htp & Hobs).
    cbv zeta in Hobs. destruct Hobs as (Hok & Hmeta & Hcreate & Hreads & _).
    exists tp, ((ds_width src + tp - 1) / tp), ((ds_height src + tp - 1) / tp).
    split; [exact Hceil |]. split.
    { destruct Hv as (_ & _ & _ & _ & _ & Ht & Hpw & Hq).
      destruct (SFdiv_pos_finite_nonzero _ _ Ht Hpw Hq) as (m & e & Eq).
      rewrite Eq in Hceil |- *.
      destruct (math_ceil_is_ceiling false m e) as (n & Hn & Hc).
      rewrite Hn in Hceil. injection Hceil as <-. exact Hc. }
    split; [apply ceil_div_spec, Htp |].
    split; [apply ceil_div_spec, Htp |].
    auto.
  - intros w image_path save_path project_name src Hfile Hopen HW HH Hpw He.
    assert (Hv : valid_input w image_path f_hundred src).
    { unfold valid_input. rewrite HW, HH, Hpw.
      repeat split; try assumption; try reflexivity; lia. }
    destruct (valid_run_observations w image_path f_hundred save_path project_name
                src Hv) as (tp & Hceil & _ & Hobs).
    rewrite Hpw in Hceil. vm_compute in Hceil. injection Hceil as <-.
    cbv zeta in Hobs. rewrite HW, HH in Hobs.
    change ((500 + 200 - 1) / 200) with 3 in Hobs.
    destruct Hobs as (Hok & Hmeta & Hcreate & Hreads & Hidx).
    cbv zeta. rewrite Hreads, Hidx. auto.
Qed.

Lemma grid_computation_witness :
  valid_input (ex_world (ex_small 4)) "ortho.tif" (b64 1 0) (ex_small 4) /\
  grid_computed (ex_small 4) (b64 1 0)
    (split_image (ex_world (ex_small 4)) "ortho.tif" (b64 1 0) "tiles" "proj") /\
  let run := split_image (ex_world ex_large) "ortho.tif" f_hundred "tiles" "proj" in
  In (Print (MsgMetaTile f_hundred 200)) (snd run) /\
  In (Print (MsgCreating 9 3 3)) (snd run) /\
  nth_error (combine (tile_indices (snd run)) (reads (snd run))) 0 =
    Some (0, mkWindow 0 0 200 200) /\
  nth_error (combine (tile_indices (snd run)) (reads (snd run))) 2 =
    Some (2, mkWindow 400 0 100 200).
Proof.
  assert (Hv : valid_input (ex_world (ex_small 4)) "ortho.tif" (b64 1 0) (ex_small 4)).
  { unfold valid_input. repeat split; try reflexivity; cbn; lia. }
  split; [exact Hv |]. split.
  - exact (proj1 grid_computation (ex_world (ex_small 4)) "ortho.tif" (b64 1 0)
             "tiles" "proj" (ex_small 4) Hv).
  - pose proof (proj2 grid_computation (ex_world ex_large) "ortho.tif" "tiles" "proj"
                  ex_large eq_refl eq_refl eq_refl eq_refl eq_refl eq_refl)
      as (_ & Hmeta & Hcreate & Hcomb).
    cbv zeta. rewrite Hcomb.
    split; [exact Hmeta |]. split; [exact Hcreate |]. split; reflexivity.
Defined.

(** C1 as stated fails: with a positive tile size (the smallest positive
    float) and a positive pixel width (2 units per pixel) the quotient
    underflows to zero, [tile_px] is 0 and the run stops with
    [ZeroDivisionError] before any grid is computed. *)
Lemma grid_computation_fails_on_underflow :
  let run := split_image (ex_world ex_coarse) "ortho.tif" f_tiny "tiles" "proj" in
  float_pos f_tiny = true /\
  valid_binary prec emax f_tiny = true /\
  float_pos (SFabs (aff_a (ds_transform ex_coarse))) = true /\
  valid_binary prec emax (aff_a (ds_transform ex_coarse)) = true /\
  fst run = Raise (ZeroDivisionError "integer division or modulo by zero") /\
  reads (snd run) = [] /\
  ~ grid_computed ex_coarse f_tiny run.
Proof.
  cbv zeta. repeat split; try reflexivity.
  intros (tp & w_tiles & h_tiles & Hceil & _ & Hw & _).
  vm_compute in Hceil. injection Hceil as <-.
  unfold is_ceil_div in Hw. lia.
Qed.

(* ================================================================== *)
(** * Positivity of the tile size in pixels *)

(** C9, as amended.  For every positive tile size and every positive pixel
    resolution whose floating-point quotient is finite and not zero (it
    neither underflows to zero nor overflows), also when the tile size is
    smaller than one pixel, [tile_px = ceil(tile_size / pixel_width)] is at
    least 1, so the floor divisions computing [w_tiles] and [h_tiles] never
    divide by zero. *)
Theorem tile_width_pixels_positive (t pw : float) :
  float_pos t = true -> float_pos pw = true ->
  finite_nonzero (SFdiv prec emax t pw) = true ->
  tile_px_at_least_one t pw.
Proof.
  intros Ht Hpw Hq.
  destruct (SFdiv_pos_finite_nonzero t pw Ht Hpw Hq) as (m & e & Eq).
  destruct (math_ceil_pos m e) as (tp & Hceil & Htp).
  exists tp. rewrite Eq. split; [exact Hceil |]. split; [exact Htp |].
  intros dim. unfold py_floordiv.
  replace (tp =? 0) with false by (symmetry; apply Z.eqb_neq; lia).
  reflexivity.
Qed.

(** A tile of 0.1 units on a raster of 0.5 units per pixel. *)
Lemma tile_width_pixels_positive_witness :
  (float_pos f_tenth = true /\ float_pos f_half = true /\
   finite_nonzero (SFdiv prec emax f_tenth f_half) = true) /\
  SFltb f_tenth f_half = true /\
  tile_px_at_least_one f_tenth f_half.
Proof.
  split; [repeat split; reflexivity |].
  split; [reflexivity |].
  apply (tile_width_pixels_positive f_tenth f_half); reflexivity.
Defined.

(** C9 as stated fails: the smallest positive float divided by 2 rounds to
    zero, so [tile_px] is 0 and the floor division raises. *)
Lemma tile_width_pixels_zero_on_underflow :
  float_pos f_tiny = true /\ float_pos f_two = true /\
  valid_binary prec emax f_tiny = true /\ valid_binary prec emax f_two = true /\
  math_ceil (SFdiv prec emax f_tiny f_two) = Ok 0 /\
  py_floordiv (500 + 0 - 1) 0 =
    Raise (ZeroDivisionError "integer division or modulo by zero") /\
  ~ tile_px_at_least_one f_tiny f_two.
Proof.
  repeat split; try reflexivity.
  intros (tp & Hceil & Htp & _).
  vm_compute in Hceil. injection Hceil as <-. lia.
Qed.

(* ================================================================== *)
(** * Per-tile output policy *)

(** C2.  For every tile of a 4-band raster: if every value of band 3
    (alpha) inside the tile is zero, nothing is written and the index
    still advances by one; otherwise one 4-channel image is written whose
    pixels list the source bands 2, 1, 0, 3 (channels 0 and 2 swapped,
    channels 1 and 3 unchanged, alpha exactly as read, no fill). *)
Theorem four_band_tile_policy src save_path project_name tp i j n :
  ds_count src = 4 ->
  let win := tile_window (ds_width src) (ds_height src) tp i j in
  let path := tile_output_path save_path project_name n in
  let run := process_tile src save_path project_name tp i j n in
  (band_all_zero src win 3 ->
     run = (Ok (n + 1), [Read win; Print (MsgTileEmptyAlpha n)]) /\
     written (snd run) = []) /\
  (~ band_all_zero src win 3 ->
     run = (Ok (n + 1),
            [Read win;
             ImWrite path (grid (height win) (width win) (pixel_2103 src win));
             Print (MsgTileSaved n path)]) /\
     written (snd run) =
       [(path, grid (height win) (width win) (pixel_2103 src win))]).
Proof.
  intros Hc. cbv zeta. rewrite process_tile_eq. cbv zeta.
  rewrite Hc. change (4 =? 4) with true. cbv iota.
  rewrite out_img_four_bands by exact Hc.
  pose proof (alpha_channel_all_zero src
                (tile_window (ds_width src) (ds_height src) tp i j)) as Halpha.
  destruct (np_all_eq_zero _).
  - split; [intros _; split; reflexivity |].
    intros Hn. exfalso. apply Hn, Halpha. reflexivity.
  - split; [| intros _; split; reflexivity].
    intros Hz. apply Halpha in Hz. discriminate.
Qed.

Lemma four_band_tile_policy_witness :
  ds_count (ex_small 4) = 4 /\
  process_tile (ex_small 4) "tiles" "proj" 2 0 0 0 =
    (Ok 1, [Read (mkWindow 0 0 2 2); Print (MsgTileEmptyAlpha 0)]) /\
  process_tile (ex_small 4) "tiles" "proj" 2 0 1 1 =
    (Ok 2,
     [Read (mkWindow 2 0 2 2);
      ImWrite "tiles/proj_tile_1.png"
        [[[202; 102; 2; 255]; [203; 103; 3; 255]];
         [[212; 112; 12; 255]; [213; 113; 13; 255]]];
      Print (MsgTileSaved 1 "tiles/proj_tile_1.png")]).
Proof.
  split; [reflexivity |]. split.
  - refine (proj1 (proj1 (four_band_tile_policy (ex_small 4) "tiles" "proj"
                            2 0 0 0 eq_refl) _)).
    intros r c Hr Hc. cbn in Hc |- *. unfold ex_sample.
    destruct (Z.ltb_spec c 2); [reflexivity | lia].
  - refine (proj1 (proj2 (four_band_tile_policy (ex_small 4) "tiles" "proj"
                            2 0 1 1 eq_refl) _)).
    intros Hz. specialize (Hz 0 0 ltac:(cbn; lia) ltac:(cbn; lia)).
    vm_compute in Hz. discriminate.
Defined.

(** C3.  For every tile of a 3-band raster: if every sample of the tile is
    zero, nothing is written; otherwise one 3-channel image is written
    whose pixels list the source bands in read order 0, 1, 2 (no swap). *)
Theorem three_band_tile_policy src save_path project_name tp i j n :
  ds_count src = 3 ->
  let win := tile_window (ds_width src) (ds_height src) tp i j in
  let path := tile_output_path save_path project_name n in
  let run := process_tile src save_path project_name tp i j n in
  ((forall b, 0 <= b < 3 -> band_all_zero src win b) ->
     run = (Ok (n + 1), [Read win; Print (MsgTileEmpty n)]) /\
     written (snd run) = []) /\
  (~ (forall b, 0 <= b < 3 -> band_all_zero src win b) ->
     run = (Ok (n + 1),
            [Read win;
             ImWrite path (grid (height win) (width win) (pixel_012 src win));
             Print (MsgTileSaved n path)]) /\
     written (snd run) =
       [(path, grid (height win) (width win) (pixel_012 src win))]).
Proof.
  intros Hc. cbv zeta. rewrite process_tile_eq. cbv zeta.
  rewrite Hc. change (3 =? 4) with false. change (3 =? 3) with true. cbv iota.
  rewrite out_img_three_bands by exact Hc.
  pose proof (three_band_any_false src
                (tile_window (ds_width src) (ds_height src) tp i j)) as Hany.
  destruct (np_any _).
  - split; [| intros _; split; reflexivity].
    intros Hz. apply Hany in Hz. discriminate.
  - split; [intros _; split; reflexivity |].
    intros Hn. exfalso. apply Hn, Hany. reflexivity.
Qed.

Lemma three_band_tile_policy_witness :
  ds_count (ex_small 3) = 3 /\
  process_tile (ex_small 3) "tiles" "proj" 2 0 0 0 =
    (Ok 1, [Read (mkWindow 0 0 2 2); Print (MsgTileEmpty 0)]) /\
  process_tile (ex_small 3) "tiles" "proj" 2 0 1 1 =
    (Ok 2,
     [Read (mkWindow 2 0 2 2);
      ImWrite "tiles/proj_tile_1.png"
        [[[2; 102; 202]; [3; 103; 203]]; [[12; 112; 212]; [13; 113; 213]]];
      Print (MsgTileSaved 1 "tiles/proj_tile_1.png")]).
Proof.
  split; [reflexivity |]. split.
  - refine (proj1 (proj1 (three_band_tile_policy (ex_small 3) "tiles" "proj"
                            2 0 0 0 eq_refl) _)).
    intros b Hb r c Hr Hc. cbn in Hc |- *. unfold ex_sample.
    destruct (Z.ltb_spec c 2); [reflexivity | lia].
  - refine (proj1 (proj2 (three_band_tile_policy (ex_small 3) "tiles" "proj"
                            2 0 1 1 eq_refl) _)).
    intros Hz. specialize (Hz 1 ltac:(lia) 0 0 ltac:(cbn; lia) ltac:(cbn; lia)).
    vm_compute in Hz. discriminate.
Defined.

(** C8.  For every band count other than 3 and 4 no tile is ever written:
    each tile is skipped with its index advancing by one, the double loop
    runs to completion without raising, and a run on a valid input
    completes normally. *)
Theorem unsupported_band_count_skipped src save_path project_name :
  ds_count src <> 3 -> ds_count src <> 4 ->
  (forall tp i j n,
     process_tile src save_path project_name tp i j n =
     (Ok (n + 1),
      [Read (tile_window (ds_width src) (ds_height src) tp i j);
       Print (MsgTileUnsupported n (ds_count src))])) /\
  (forall tp w_tiles h_tiles n,
     let loop := tile_loop src save_path project_name tp w_tiles h_tiles n in
     fst loop = Ok (n + Z.of_nat (Z.to_nat h_tiles * Z.to_nat w_tiles)) /\
     written (snd loop) = []) /\
  (forall w image_path t,
     rasterio_open w image_path = Some src ->
     written (snd (split_image w image_path t save_path project_name)) = []) /\
  (forall w image_path t,
     valid_input w image_path t src ->
     fst (split_image w image_path t save_path project_name) = Ok tt).
Proof.
  intros H3 H4. split; [| split; [| split]].
  - intros tp i j n. apply process_tile_unsupported; assumption.
  - intros tp w_tiles h_tiles n. cbv zeta. split.
    + pose proof (tile_loop_visits src save_path project_name tp w_tiles h_tiles n)
        as (Hf & _).
      rewrite Hf, row_major_windows_length. reflexivity.
    + apply tile_loop_unsupported_no_writes; assumption.
  - intros w image_path t Hopen. rewrite split_image_eq, Hopen.
    destruct (os_path_isfile w image_path); [| reflexivity].
    rewrite split_opened_eq. cbv zeta.
    destruct (float_eq_zero _ || float_eq_zero _).
    { cbn [snd]. rewrite !written_app, written_preamble. reflexivity. }
    destruct (math_ceil _) as [tp | e].
    2: { cbn [snd]. rewrite !written_app, written_preamble. reflexivity. }
    destruct (tp =? 0).
    { cbn [snd]. rewrite !written_app, written_preamble. reflexivity. }
    cbn [snd]. rewrite !written_app, written_preamble.
    rewrite tile_loop_unsupported_no_writes by assumption. reflexivity.
  - intros w image_path t Hv.
    destruct (valid_run_observations w image_path t save_path project_name src Hv)
      as (tp & _ & _ & Hobs).
    apply Hobs.
Qed.

Lemma unsupported_band_count_skipped_witness :
  (ds_count (ex_small 1) <> 3 /\ ds_count (ex_small 1) <> 4) /\
  process_tile (ex_small 1) "tiles" "proj" 2 0 1 1 =
    (Ok 2, [Read (mkWindow 2 0 2 2); Print (MsgTileUnsupported 1 1)]) /\
  written (snd (split_image (ex_world (ex_small 1)) "ortho.tif" (b64 1 0)
                  "tiles" "proj")) = [].
Proof.
  assert (H3 : ds_count (ex_small 1) <> 3) by (cbn; lia).
  assert (H4 : ds_count (ex_small 1) <> 4) by (cbn; lia).
  split; [split; assumption |].
  pose proof (unsupported_band_count_skipped (ex_small 1) "tiles" "proj" H3 H4)
    as (Htile & _ & Hrun & _).
  split.
  - exact (Htile 2 0 1 1).
  - exact (Hrun (ex_world (ex_small 1)) "ortho.tif" (b64 1 0) eq_refl).
Defined.

(* ================================================================== *)
(** * Iteration order and tile index *)

(** C4.  For every valid input a full run completes, visits the tiles in
    row-major order (all tiles of row 0, then row 1, ...), announces the
    indices 0, 1, 2, ... one per visited tile, so that their number is
    [w_tiles * h_tiles]; and the loop body advances the index by exactly
    one on every tile, written or skipped. *)
Theorem row_major_run w image_path t save_path project_name src :
  valid_input w image_path t src ->
  exists tp,
    math_ceil (SFdiv prec emax t (SFabs (aff_a (ds_transform src)))) = Ok tp /\
    let w_tiles := (ds_width src + tp - 1) / tp in
    let h_tiles := (ds_height src + tp - 1) / tp in
    let run := split_image w image_path t save_path project_name in
    fst run = Ok tt /\
    reads (snd run) =
      row_major_windows (ds_width src) (ds_height src) tp w_tiles h_tiles /\
    tile_indices (snd run) = range (w_tiles * h_tiles) /\
    Z.of_nat (List.length (tile_indices (snd run))) = w_tiles * h_tiles /\
    (forall i j n,
       let step := process_tile src save_path project_name tp i j n in
       fst step = Ok (n + 1) /\
       reads (snd step) = [tile_window (ds_width src) (ds_height src) tp i j] /\
       tile_indices (snd step) = [n]).
Proof.
  intros Hv.
  destruct (valid_run_observations w image_path t save_path project_name src Hv)
    as (tp & Hceil & Htp & Hobs).
  destruct Hv as (_ & _ & HW & HH & _).
  exists tp. split; [exact Hceil |].
  cbv zeta in *. destruct Hobs as (Hok & _ & _ & Hreads & Hidx).
  repeat split; try assumption.
  - rewrite Hidx, range_length. apply Z2Nat.id.
    apply Z.mul_nonneg_nonneg; apply ceil_div_nonneg; assumption.
  - apply process_tile_visit.
  - apply process_tile_visit.
  - apply process_tile_visit.
Qed.

Lemma row_major_run_witness :
  valid_input (ex_world (ex_small 4)) "ortho.tif" (b64 1 0) (ex_small 4) /\
  let run := split_image (ex_world (ex_small 4)) "ortho.tif" (b64 1 0) "tiles" "proj" in
  fst run = Ok tt /\
  reads (snd run) =
    [mkWindow 0 0 2 2; mkWindow 2 0 2 2; mkWindow 4 0 1 2;
     mkWindow 0 2 2 1; mkWindow 2 2 2 1; mkWindow 4 2 1 1] /\
  tile_indices (snd run) = [0; 1; 2; 3; 4; 5].
Proof.
  assert (Hv : valid_input (ex_world (ex_small 4)) "ortho.tif" (b64 1 0) (ex_small 4)).
  { unfold valid_input. repeat split; try reflexivity; cbn; lia. }
  split; [exact Hv |].
  destruct (row_major_run (ex_world (ex_small 4)) "ortho.tif" (b64 1 0)
              "tiles" "proj" (ex_small 4) Hv)
    as (tp & Hceil & Hok & Hreads & Hidx & _).
  vm_compute in Hceil. injection Hceil as <-.
  cbv zeta. split; [exact Hok |]. split; [exact Hreads | exact Hidx].
Defined.

(* ================================================================== *)
(** * Clipping of the tile windows *)

(** C5.  For every tile window of the grid (tile size in pixels at least
    1): a tile that is not in the last column has width exactly [tile_px]
    and one that is not in the last row has height exactly [tile_px]; a
    tile in the last column (row) has a width (height) that is greater
    than 0, at most [tile_px] and equal to the image dimension minus
    [tile_px] times the number of tiles before it on that axis; every
    window lies within the image. *)
Theorem tile_window_clipping W H tp :
  1 <= tp ->
  let w_tiles := (W + tp - 1) / tp in
  let h_tiles := (H + tp - 1) / tp in
  (forall i j, 0 <= i < h_tiles -> 0 <= j < w_tiles ->
     let win := tile_window W H tp i j in
     (j < w_tiles - 1 -> width win = tp) /\
     (i < h_tiles - 1 -> height win = tp) /\
     (j = w_tiles - 1 -> 0 < width win <= tp /\ width win = W - tp * j) /\
     (i = h_tiles - 1 -> 0 < height win <= tp /\ height win = H - tp * i) /\
     0 <= col_off win /\ 0 <= row_off win /\
     0 < width win /\ 0 < height win /\
     col_off win + width win <= W /\ row_off win + height win <= H) /\
  (forall win, In win (row_major_windows W H tp w_tiles h_tiles) ->
     0 <= col_off win /\ 0 <= row_off win /\
     0 < width win <= tp /\ 0 < height win <= tp /\
     col_off win + width win <= W /\ row_off win + height win <= H).
Proof.
  intros Htp. cbv zeta. split.
  - intros i j Hi Hj.
    pose proof (tile_window_bounds W H tp i j Htp Hi Hj) as Hb.
    cbv zeta in Hb.
    destruct Hb as (Hx & Hy & Hw & Hh & HxW & HyH & Hiw & Hih & Hlw & Hlh).
    repeat split; auto; try lia; try nia.
  - intros win Hin. unfold row_major_windows in Hin.
    apply in_flat_map in Hin. destruct Hin as (i & Hi & Hin).
    apply in_map_iff in Hin. destruct Hin as (j & <- & Hj).
    apply in_range in Hi, Hj.
    pose proof (tile_window_bounds W H tp i j Htp Hi Hj) as Hb.
    cbv zeta in Hb.
    destruct Hb as (Hx & Hy & Hw & Hh & HxW & HyH & _).
    repeat split; try lia; try nia.
Qed.

Lemma tile_window_clipping_witness :
  1 <= 200 /\
  width (tile_window 500 500 200 0 0) = 200 /\
  width (tile_window 500 500 200 0 2) = 500 - 200 * 2 /\
  height (tile_window 500 500 200 2 1) = 500 - 200 * 2.
Proof.
  assert (Htp : 1 <= 200) by lia.
  split; [exact Htp |].
  pose proof (tile_window_clipping 500 500 200 Htp) as [Hgrid _].
  cbv zeta in Hgrid. change ((500 + 200 - 1) / 200) with 3 in Hgrid.
  split; [| split].
  - apply (Hgrid 0 0); lia.
  - apply (Hgrid 0 2); lia.
  - apply (Hgrid 2 1); lia.
Defined.

(* ================================================================== *)
(** * The two fatal validation failures *)

(** Inside the [with] block only the resolution check, [math.ceil] and
    the floor division can raise. *)
Lemma split_opened_raises src t save_path project_name e :
  fst (split_opened src t save_path project_name) = Raise e ->
  (e = InvalidResolutionError /\
   float_eq_zero (SFabs (aff_a (ds_transform src))) ||
   float_eq_zero (SFabs (aff_e (ds_transform src))) = true) \/
  e = OverflowError "cannot convert float infinity to integer" \/
  e = ValueError "cannot convert float NaN to integer" \/
  e = ZeroDivisionError "integer division or modulo by zero".
Proof.
  rewrite split_opened_eq. cbv zeta.
  destruct (float_eq_zero _ || float_eq_zero _).
  - cbn. intros [= <-]. auto.
  - destruct (SFdiv prec emax t (SFabs (aff_a (ds_transform src))))
      as [s | s | | s m ex]; cbn [math_ceil].
    + change (0 =? 0) with true. cbn. intros [= <-]. auto.
    + cbn. intros [= <-]. auto.
    + cbn. intros [= <-]. auto.
    + destruct (_ =? 0); cbn; [intros [= <-]; auto | discriminate].
Qed.

(** C6.  Once the raster is opened: if the absolute value of the
    horizontal or of the vertical scale term of the transform is zero, the
    run aborts with [InvalidResolutionError] before any tile is processed
    (nothing is read, no index is announced) and no file is written; if
    both are non-zero, no resolution error is raised. *)
Theorem zero_resolution_aborts w image_path t save_path project_name src :
  os_path_isfile w image_path = true ->
  rasterio_open w image_path = Some src ->
  let pixel_width_meters := SFabs (aff_a (ds_transform src)) in
  let pixel_height_meters := SFabs (aff_e (ds_transform src)) in
  let run := split_image w image_path t save_path project_name in
  (float_eq_zero pixel_width_meters = true \/
   float_eq_zero pixel_height_meters = true ->
     run = (Raise InvalidResolutionError,
            (preamble w image_path t save_path ++
             [Open image_path; Close image_path])%list) /\
     reads (snd run) = [] /\ tile_indices (snd run) = [] /\
     written (snd run) = []) /\
  (float_eq_zero pixel_width_meters = false /\
   float_eq_zero pixel_height_meters = false ->
     fst run <> Raise InvalidResolutionError).
Proof.
  intros Hfile Hopen. cbv zeta. split.
  - intros Hzero.
    assert (Hor : float_eq_zero (SFabs (aff_a (ds_transform src))) ||
                  float_eq_zero (SFabs (aff_e (ds_transform src))) = true)
      by (apply orb_true_iff; exact Hzero).
    rewrite split_image_eq, Hfile, Hopen, split_opened_eq. cbv zeta.
    rewrite Hor. cbn [app fst snd].
    rewrite !reads_app, !tile_indices_app, !written_app.
    rewrite reads_preamble, tile_indices_preamble, written_preamble.
    repeat split; reflexivity.
  - intros [Ha He] Hraise.
    rewrite split_image_eq, Hfile, Hopen in Hraise.
    destruct (split_opened src t save_path project_name) as [[[] | e] tr] eqn:E;
      cbn [fst] in Hraise; [discriminate |].
    injection Hraise as ->.
    pose proof (split_opened_raises src t save_path project_name
                  InvalidResolutionError) as Hcases.
    rewrite E in Hcases. specialize (Hcases eq_refl).
    rewrite Ha, He in Hcases. cbn [orb] in Hcases.
    destruct Hcases as [[_ H] | [H | [H | H]]]; discriminate.
Qed.

Lemma zero_resolution_aborts_witness :
  (os_path_isfile (ex_world ex_flat) "ortho.tif" = true /\
   rasterio_open (ex_world ex_flat) "ortho.tif" = Some ex_flat /\
   float_eq_zero (SFabs (aff_e (ds_transform ex_flat))) = true) /\
  let run := split_image (ex_world ex_flat) "ortho.tif" (b64 1 0) "out" "proj" in
  run = (Raise InvalidResolutionError,
         [Print (MsgProcessing "ortho.tif" (b64 1 0)); Print MsgDirWarning;
          MakeDirs "out"; Open "ortho.tif"; Close "ortho.tif"]) /\
  reads (snd run) = [] /\ tile_indices (snd run) = [] /\ written (snd run) = [].
Proof.
  split; [repeat split; reflexivity |].
  exact (proj1 (zero_resolution_aborts (ex_world ex_flat) "ortho.tif" (b64 1 0)
                  "out" "proj" ex_flat eq_refl eq_refl) (or_intror eq_refl)).
Defined.

(** C10.  When the run fails because the input file does not exist, no
    file-system effect has occurred: in particular the output directory is
    not created even if it is absent, the existence check coming first.
    By contrast, the zero-resolution failure comes after the directory
    has been created when it was absent. *)
Theorem missing_input_no_side_effect w image_path t save_path project_name :
  let run := split_image w image_path t save_path project_name in
  (os_path_isfile w image_path = false ->
   fst run = Raise (NotFoundError image_path) /\
   fs_effects (snd run) = [] /\
   ~ In (MakeDirs save_path) (snd run)) /\
  (forall src,
     os_path_isfile w image_path = true ->
     os_path_exists w save_path = false ->
     rasterio_open w image_path = Some src ->
     float_eq_zero (SFabs (aff_a (ds_transform src))) = true \/
     float_eq_zero (SFabs (aff_e (ds_transform src))) = true ->
     fst run = Raise InvalidResolutionError /\
     In (MakeDirs save_path) (snd run)).
Proof.
  cbv zeta. split.
  - intros Hfile. rewrite split_image_eq, Hfile. cbn.
    repeat split; try reflexivity.
    intros [H | []]. discriminate.
  - intros src Hfile Hexists Hopen Hzero.
    destruct (zero_resolution_aborts w image_path t save_path project_name src
                Hfile Hopen) as [Habort _].
    cbv zeta in Habort. destruct (Habort Hzero) as (Hrun & _).
    rewrite Hrun. cbn [fst snd]. split; [reflexivity |].
    unfold preamble. rewrite Hexists. cbn. auto.
Qed.

Lemma missing_input_no_side_effect_witness :
  (os_path_isfile (ex_world ex_large) "missing.tif" = false /\
   os_path_exists (ex_world ex_large) "out" = false) /\
  let run := split_image (ex_world ex_large) "missing.tif" f_hundred "out" "proj" in
  fst run = Raise (NotFoundError "missing.tif") /\
  fs_effects (snd run) = [] /\
  ~ In (MakeDirs "out") (snd run).
Proof.
  split; [split; reflexivity |].
  exact (proj1 (missing_input_no_side_effect (ex_world ex_large) "missing.tif"
                  f_hundred "out" "proj") eq_refl).
Defined.

(* ================================================================== *)
(** * Further properties of the grid *)

(** X1.  The tiles partition the image: every pixel of the image lies in the
    window of the tile in row [r / tile_px] and column [c / tile_px] of
    the grid, and in the window of no other tile. *)
Theorem tiles_partition_image W H tp r c :
  1 <= tp -> 0 <= r < H -> 0 <= c < W ->
  let w_tiles := (W + tp - 1) / tp in
  let h_tiles := (H + tp - 1) / tp in
  (0 <= r / tp < h_tiles /\ 0 <= c / tp < w_tiles /\
   in_window (tile_window W H tp (r / tp) (c / tp)) r c) /\
  (forall i j, 0 <= i < h_tiles -> 0 <= j < w_tiles ->
     in_window (tile_window W H tp i j) r c -> i = r / tp /\ j = c / tp).
Proof.
  intros Htp Hr Hc. cbv zeta.
  pose proof (ceil_div_spec W tp Htp) as [[_ HWc] | [Hneg _]]; [| lia].
  pose proof (ceil_div_spec H tp Htp) as [[_ HHc] | [Hneg _]]; [| lia].
  set (w_tiles := (W + tp - 1) / tp) in *.
  set (h_tiles := (H + tp - 1) / tp) in *.
  pose proof (Z.div_mod r tp ltac:(lia)) as Hrd.
  pose proof (Z.mod_pos_bound r tp ltac:(lia)) as Hrm.
  pose proof (Z.div_mod c tp ltac:(lia)) as Hcd.
  pose proof (Z.mod_pos_bound c tp ltac:(lia)) as Hcm.
  assert (Hri : 0 <= r / tp < h_tiles) by nia.
  assert (Hci : 0 <= c / tp < w_tiles) by nia.
  split.
  - split; [exact Hri |]. split; [exact Hci |].
    unfold in_window, tile_window. cbn [row_off col_off width height]. lia.
  - intros i j Hi Hj. unfold in_window, tile_window.
    cbn [row_off col_off width height]. intros [Hrow Hcol]. split; nia.
Qed.

Lemma tiles_partition_image_witness :
  (1 <= 200 /\ 0 <= 250 < 500 /\ 0 <= 450 < 500) /\
  in_window (mkWindow 400 200 100 200) 250 450 /\
  (forall i j, 0 <= i < 3 -> 0 <= j < 3 ->
     in_window (tile_window 500 500 200 i j) 250 450 -> i = 1 /\ j = 2).
Proof.
  split; [lia |].
  pose proof (tiles_partition_image 500 500 200 250 450
                ltac:(lia) ltac:(lia) ltac:(lia)) as [(_ & _ & Hin) Huniq].
  split; [exact Hin | exact Huniq].
Defined.

(** X2.  A tile at least as large as the image gives a grid of one tile whose
    window is the whole image. *)
Theorem tile_larger_than_image w image_path t save_path project_name src tp :
  valid_input w image_path t src ->
  math_ceil (SFdiv prec emax t (SFabs (aff_a (ds_transform src)))) = Ok tp ->
  1 <= ds_width src <= tp -> 1 <= ds_height src <= tp ->
  let run := split_image w image_path t save_path project_name in
  fst run = Ok tt /\
  In (Print (MsgCreating 1 1 1)) (snd run) /\
  reads (snd run) = [mkWindow 0 0 (ds_width src) (ds_height src)] /\
  tile_indices (snd run) = [0].
Proof.
  intros Hv Hceil HW HH.
  destruct (valid_run_observations w image_path t save_path project_name src Hv)
    as (tp' & Hceil' & Htp & Hobs).
  rewrite Hceil in Hceil'. injection Hceil' as <-.
  cbv zeta in *.
  assert (Ew : (ds_width src + tp - 1) / tp = 1)
    by (symmetry; apply (Z.div_unique _ _ 1 (ds_width src - 1)); lia).
  assert (Eh : (ds_height src + tp - 1) / tp = 1)
    by (symmetry; apply (Z.div_unique _ _ 1 (ds_height src - 1)); lia).
  rewrite Ew, Eh in Hobs. destruct Hobs as (Hok & _ & Hcreate & Hreads & Hidx).
  split; [exact Hok |]. split; [exact Hcreate |].
  rewrite Hreads, Hidx. split; [| reflexivity].
  unfold row_major_windows, range. change (Z.to_nat 1) with 1%nat.
  cbn [seq map flat_map app]. change (Z.of_nat 0) with 0.
  unfold tile_window. rewrite Z.mul_0_l, !Z.sub_0_r.
  rewrite !Z.min_r by lia. reflexivity.
Qed.

Lemma tile_larger_than_image_witness :
  (valid_input (ex_world (ex_small 3)) "ortho.tif" f_hundred (ex_small 3) /\
   math_ceil (SFdiv prec emax f_hundred
                (SFabs (aff_a (ds_transform (ex_small 3))))) = Ok 200) /\
  reads (snd (split_image (ex_world (ex_small 3)) "ortho.tif" f_hundred
                "tiles" "proj")) = [mkWindow 0 0 5 3].
Proof.
  assert (Hv : valid_input (ex_world (ex_small 3)) "ortho.tif" f_hundred (ex_small 3)).
  { unfold valid_input. repeat split; try reflexivity; cbn; lia. }
  split; [split; [exact Hv | reflexivity] |].
  apply (tile_larger_than_image (ex_world (ex_small 3)) "ortho.tif" f_hundred
           "tiles" "proj" (ex_small 3) 200 Hv eq_refl); cbn; lia.
Defined.

(* ================================================================== *)
(** * Reasoning on whole traces *)

(** A property of traces that holds of the empty trace, is kept by
    concatenation and holds of every execution of the body holds of the
    loop. *)
Lemma for_each_trace_ind {A S} (P : list event -> Prop)
    (body : A -> S -> M S) (xs : list A) :
  P [] ->
  (forall t1 t2, P t1 -> P t2 -> P (t1 ++ t2)%list) ->
  (forall x s, In x xs -> P (snd (body x s))) ->
  forall s, P (snd (for_each xs body s)).
Proof.
  intros Hnil Happ. induction xs as [| x rest IH]; intros Hbody s.
  - exact Hnil.
  - cbn [for_each]. unfold bind.
    pose proof (Hbody x s (or_introl eq_refl)) as Hx.
    destruct (body x s) as [[s' | e] t]; cbn [snd] in *; [| exact Hx].
    assert (Hrest : P (snd (for_each rest body s'))).
    { apply IH. intros y s0 Hy. apply Hbody. right. exact Hy. }
    destruct (for_each rest body s') as [r t']. cbn [snd] in *.
    apply Happ; assumption.
Qed.

Lemma tile_loop_trace_ind (P : list event -> Prop)
    src save_path project_name tp w_tiles h_tiles :
  P [] ->
  (forall t1 t2, P t1 -> P t2 -> P (t1 ++ t2)%list) ->
  (forall i j n, 0 <= i < h_tiles -> 0 <= j < w_tiles ->
     P (snd (process_tile src save_path project_name tp i j n))) ->
  forall s, P (snd (tile_loop src save_path project_name tp w_tiles h_tiles s)).
Proof.
  intros Hnil Happ Htile s. unfold tile_loop.
  apply for_each_trace_ind; [exact Hnil | exact Happ |].
  intros i n Hi. apply for_each_trace_ind; [exact Hnil | exact Happ |].
  intros j n' Hj. apply Htile; apply in_range; assumption.
Qed.

(** The same for the body of the [with] block: outside the loop it only
    prints, and the loop runs over the grid of a non-zero tile size. *)
Lemma split_opened_trace_ind (P : list event -> Prop)
    src t save_path project_name :
  P [] ->
  (forall t1 t2, P t1 -> P t2 -> P (t1 ++ t2)%list) ->
  (forall m, is_tile_message m = false -> P [Print m]) ->
  (forall tp i j n,
     math_ceil (SFdiv prec emax t (SFabs (aff_a (ds_transform src)))) = Ok tp ->
     tp <> 0 ->
     0 <= i < (ds_height src + tp - 1) / tp ->
     0 <= j < (ds_width src + tp - 1) / tp ->
     P (snd (process_tile src save_path project_name tp i j n))) ->
  P (snd (split_opened src t save_path project_name)).
Proof.
  intros Hnil Happ Hprint Htile. rewrite split_opened_eq. cbv zeta.
  destruct (float_eq_zero _ || float_eq_zero _); [exact Hnil |].
  destruct (math_ceil _) as [tp | e] eqn:Hceil; [| exact Hnil].
  assert (Hmeta : P (metadata_prints src t tp)).
  { unfold metadata_prints.
    do 7 (apply (Happ [_] _); [apply Hprint; reflexivity |]).
    apply Hprint. reflexivity. }
  destruct (Z.eqb_spec tp 0) as [E | E]; [exact Hmeta |].
  cbn [snd]. apply Happ; [exact Hmeta |].
  apply (Happ [_] _); [apply Hprint; reflexivity |].
  apply tile_loop_trace_ind; [exact Hnil | exact Happ |].
  intros i j n Hi Hj. apply (Htile tp i j n eq_refl E Hi Hj).
Qed.

(** The same for a whole run. *)
Lemma split_image_trace_ind (P : list event -> Prop)
    w image_path t save_path project_name :
  P [] ->
  (forall t1 t2, P t1 -> P t2 -> P (t1 ++ t2)%list) ->
  (forall ev, outside_loop ev -> P [ev]) ->
  (forall src tp i j n,
     rasterio_open w image_path = Some src ->
     P (snd (process_tile src save_path project_name tp i j n))) ->
  P (snd (split_image w image_path t save_path project_name)).
Proof.
  intros Hnil Happ Hout Htile. rewrite split_image_eq.
  assert (Hpre : P (preamble w image_path t save_path)).
  { unfold preamble. destruct (os_path_exists w save_path).
    - apply Hout. reflexivity.
    - apply (Happ [_] _); [apply Hout; reflexivity |].
      apply (Happ [_] _); apply Hout; reflexivity || exact I. }
  destruct (os_path_isfile w image_path); [| apply Hout; reflexivity].
  destruct (rasterio_open w image_path) as [src |] eqn:Hopen; [| exact Hpre].
  assert (Hbody : P (snd (split_opened src t save_path project_name))).
  { apply split_opened_trace_ind; [exact Hnil | exact Happ | |].
    - intros m Hm. apply Hout. exact Hm.
    - intros tp i j n _ _ _ _. apply (Htile src tp i j n eq_refl). }
  destruct (split_opened src t save_path project_name) as [[[] | e] tr];
    cbn [snd] in *.
  - apply Happ; [exact Hpre |]. apply (Happ [_] _); [apply Hout; exact I |].
    apply Happ; [exact Hbody |].
    apply (Happ [_] _); apply Hout; exact I || reflexivity.
  - apply Happ; [exact Hpre |]. apply (Happ [_] _); [apply Hout; exact I |].
    apply Happ; [exact Hbody |]. apply Hout. exact I.
Qed.

(* ================================================================== *)
(** * The raster handle *)

(** A run that raises does not print the completion message. *)
Lemma raising_run_prints_no_completion w image_path t save_path project_name e :
  fst (split_image w image_path t save_path project_name) = Raise e ->
  ~ In (Print MsgDone) (snd (split_image w image_path t save_path project_name)).
Proof.
  rewrite split_image_eq.
  destruct (os_path_isfile w image_path).
  2: { cbn. intros _ [H | []]. discriminate. }
  assert (Hpre : ~ In (Print MsgDone) (preamble w image_path t save_path)).
  { unfold preamble. destruct (os_path_exists w save_path); cbn;
      intuition discriminate. }
  destruct (rasterio_open w image_path) as [src |]; [| intros _; exact Hpre].
  assert (Hdone : ~ In (Print MsgDone) (snd (split_opened src t save_path project_name))).
  { rewrite split_opened_eq. cbv zeta.
    destruct (float_eq_zero _ || float_eq_zero _); [intros [] |].
    destruct (math_ceil _) as [tp | e']; [| intros []].
    assert (Hmeta : ~ In (Print MsgDone) (metadata_prints src t tp))
      by (unfold metadata_prints; cbn; intuition discriminate).
    destruct (tp =? 0); [exact Hmeta |].
    cbn [snd]. intros Hin. apply in_app_or in Hin.
    destruct Hin as [Hin | [Hin | Hin]]; [tauto | discriminate |].
    revert Hin.
    apply (tile_loop_trace_ind (fun tr => ~ In (Print MsgDone) tr)).
    - intros [].
    - intros t1 t2 H1 H2 Hin. apply in_app_or in Hin. tauto.
    - intros i j n _ _. rewrite process_tile_eq. cbv zeta.
      destruct (ds_count src =? 4).
      + destruct (np_all_eq_zero _); cbn; intuition discriminate.
      + destruct (ds_count src =? 3).
        * destruct (np_any _); cbn; intuition discriminate.
        * cbn; intuition discriminate. }
  destruct (split_opened src t save_path project_name) as [[[] | e'] tr];
    cbn [fst snd] in *; [discriminate |].
  intros _ Hin. apply in_app_or in Hin. destruct Hin as [Hin | Hin]; [tauto |].
  cbn [app] in Hin. destruct Hin as [Hin | Hin]; [discriminate |].
  apply in_app_or in Hin. destruct Hin as [Hin | [Hin | []]];
    [tauto | discriminate].
Qed.

Lemma raster_io_app t1 t2 :
  raster_io (t1 ++ t2) = (raster_io t1 ++ raster_io t2)%list.
Proof. apply filter_app. Qed.

Lemma made_dirs_app t1 t2 :
  made_dirs (t1 ++ t2) = (made_dirs t1 ++ made_dirs t2)%list.
Proof. apply flat_map_app. Qed.

(** Inside the [with] block the only raster I/O is windowed reads, and no
    directory is created. *)
Lemma split_opened_raster_io src t save_path project_name :
  let tr := snd (split_opened src t save_path project_name) in
  raster_io tr = map Read (reads tr) /\ made_dirs tr = [].
Proof.
  cbv zeta.
  apply (split_opened_trace_ind
           (fun tr => raster_io tr = map Read (reads tr) /\ made_dirs tr = [])).
  - split; reflexivity.
  - intros t1 t2 [H1 D1] [H2 D2].
    rewrite raster_io_app, reads_app, map_app, made_dirs_app, H1, H2, D1, D2.
    split; reflexivity.
  - intros m _. split; reflexivity.
  - intros tp i j n _ _ _ _. rewrite process_tile_eq. cbv zeta.
    destruct (ds_count src =? 4).
    + destruct (np_all_eq_zero _); split; reflexivity.
    + destruct (ds_count src =? 3).
      * destruct (np_any _); split; reflexivity.
      * split; reflexivity.
Qed.

(** X4.  The raster is released on every path: whenever it was opened, and
    however the run ends, the raster I/O of the run is the opening, then
    windowed reads only, then the closing.  When the input file is missing
    or cannot be opened there is no raster I/O at all. *)
Theorem raster_closed_on_every_path w image_path t save_path project_name :
  let tr := snd (split_image w image_path t save_path project_name) in
  (os_path_isfile w image_path = true ->
   rasterio_open w image_path <> None ->
   raster_io tr = (Open image_path :: map Read (reads tr) ++ [Close image_path])%list) /\
  (os_path_isfile w image_path = false \/ rasterio_open w image_path = None ->
   raster_io tr = []).
Proof.
  cbv zeta. rewrite split_image_eq.
  assert (Hpre : raster_io (preamble w image_path t save_path) = []).
  { unfold preamble. destruct (os_path_exists w save_path); reflexivity. }
  destruct (os_path_isfile w image_path).
  2: { split; [discriminate | reflexivity]. }
  destruct (rasterio_open w image_path) as [src |].
  2: { split; [intros _ H; contradiction H; reflexivity | intros _; exact Hpre]. }
  split; [| intros [H | H]; discriminate].
  intros _ _.
  pose proof (split_opened_raster_io src t save_path project_name) as [Hio _].
  cbv zeta in Hio.
  destruct (split_opened src t save_path project_name) as [[[] | e] tr];
    cbn [snd] in *;
    rewrite !raster_io_app, !reads_app, Hpre, reads_preamble, Hio;
    cbn; rewrite app_nil_r; reflexivity.
Qed.

Lemma raster_closed_on_every_path_witness :
  (os_path_isfile (ex_world ex_flat) "ortho.tif" = true /\
   rasterio_open (ex_world ex_flat) "ortho.tif" <> None) /\
  raster_io (snd (split_image (ex_world ex_flat) "ortho.tif" f_hundred "tiles" "proj"))
  = [Open "ortho.tif"; Close "ortho.tif"].
Proof.
  assert (Hopen : rasterio_open (ex_world ex_flat) "ortho.tif" <> None)
    by (cbn; discriminate).
  split; [split; [reflexivity | exact Hopen] |].
  exact (proj1 (raster_closed_on_every_path (ex_world ex_flat) "ortho.tif" f_hundred
                  "tiles" "proj") eq_refl Hopen).
Defined.

(* ================================================================== *)
(** * Written files *)

Lemma saved_app t1 t2 : saved (t1 ++ t2) = (saved t1 ++ saved t2)%list.
Proof. apply flat_map_app. Qed.

Lemma skipped_app t1 t2 : skipped (t1 ++ t2) = (skipped t1 ++ skipped t2)%list.
Proof. apply flat_map_app. Qed.

(** Every announced index belongs to a save notice or to a skip notice. *)
Lemma tile_indices_saved_skipped t :
  List.length (tile_indices t) =
  (List.length (saved t) + List.length (skipped t))%nat.
Proof.
  induction t as [| ev t IH]; [reflexivity |].
  change (ev :: t) with ([ev] ++ t)%list.
  rewrite tile_indices_app, saved_app, skipped_app, !length_app, IH.
  destruct ev as [m | | | | |]; try reflexivity.
  destruct m; cbn; lia.
Qed.

Lemma saved_index_announced t n :
  In n (map fst (saved t)) -> In n (tile_indices t).
Proof.
  induction t as [| ev t IH]; [intros [] |].
  change (ev :: t) with ([ev] ++ t)%list.
  rewrite saved_app, tile_indices_app, map_app. intros Hin.
  apply in_app_or in Hin. apply in_or_app. destruct Hin as [Hin | Hin].
  - left. destruct ev as [m | | | | |]; try contradiction.
    destruct m; try contradiction. exact Hin.
  - right. apply IH, Hin.
Qed.

Lemma saved_indices_NoDup t :
  NoDup (tile_indices t) -> NoDup (map fst (saved t)).
Proof.
  induction t as [| ev t IH]; [intros _; constructor |].
  change (ev :: t) with ([ev] ++ t)%list.
  rewrite saved_app, tile_indices_app, map_app.
  destruct ev as [m | | | | |]; try exact IH.
  destruct m; try exact IH; cbn [tile_indices saved flat_map app map fst].
  - intros H. apply IH. inversion H; assumption.
  - intros H. apply IH. inversion H; assumption.
  - intros H. inversion H as [| x l Hnin Hnd]; subst. constructor.
    + intros Hin. apply Hnin, saved_index_announced, Hin.
    + apply IH, Hnd.
  - intros H. apply IH. inversion H; assumption.
Qed.

Lemma count_from_NoDup s k : NoDup (count_from s k).
Proof.
  unfold count_from. apply NoDup_map_NoDup_ForallPairs.
  - intros x y _ _ H. lia.
  - apply seq_NoDup.
Qed.

(** In every run the indices announced are [0, 1, ..., k - 1]. *)
Lemma split_image_tile_indices w image_path t save_path project_name :
  exists k,
    tile_indices (snd (split_image w image_path t save_path project_name)) =
    count_from 0 k.
Proof.
  rewrite split_image_eq.
  destruct (os_path_isfile w image_path); [| exists 0%nat; reflexivity].
  destruct (rasterio_open w image_path) as [src |].
  2: { exists 0%nat. cbn [snd]. apply tile_indices_preamble. }
  assert (H : exists k, tile_indices (snd (split_opened src t save_path project_name))
                        = count_from 0 k).
  { rewrite split_opened_eq. cbv zeta.
    destruct (float_eq_zero _ || float_eq_zero _); [exists 0%nat; reflexivity |].
    destruct (math_ceil _) as [tp | e]; [| exists 0%nat; reflexivity].
    destruct (tp =? 0); [exists 0%nat; reflexivity |].
    pose proof (tile_loop_visits src save_path project_name tp
                  ((ds_width src + tp - 1) / tp) ((ds_height src + tp - 1) / tp) 0)
      as (_ & _ & Hi).
    eexists. cbn [snd]. rewrite !tile_indices_app, Hi. reflexivity. }
  destruct H as [k Hk]. exists k.
  destruct (split_opened src t save_path project_name) as [[[] | e] tr];
    cbn [snd] in *;
    rewrite !tile_indices_app, tile_indices_preamble, Hk; cbn; apply app_nil_r.
Qed.

(** ** File names *)

Lemma append_cancel_l (a b1 b2 : string) : a ++ b1 = a ++ b2 -> b1 = b2.
Proof.
  induction a as [| c a IH]; cbn; [auto |]. intros [= H]. apply IH, H.
Qed.

Lemma length_append (a b : string) :
  String.length (a ++ b) = (String.length a + String.length b)%nat.
Proof. induction a as [| c a IH]; cbn; [| rewrite IH]; reflexivity. Qed.

Lemma append_cancel_r (b : string) : forall a1 a2 : string,
  a1 ++ b = a2 ++ b -> a1 = a2.
Proof.
  induction a1 as [| c a1 IH]; intros [| c' a2] H.
  - reflexivity.
  - apply (f_equal String.length) in H. cbn in H. rewrite length_append in H. lia.
  - apply (f_equal String.length) in H. cbn in H. rewrite length_append in H. lia.
  - cbn in H. injection H as -> H. f_equal. apply IH, H.
Qed.

Lemma to_int_not_nil n : Z.to_int n <> Decimal.Pos Decimal.Nil /\
                         Z.to_int n <> Decimal.Neg Decimal.Nil.
Proof.
  destruct n as [| p | p]; cbn; split; try discriminate;
    intros [= H]; exact (DecimalPos.Unsigned.to_uint_nonnil p H).
Qed.

Lemma str_int_inj n m : str_int n = str_int m -> n = m.
Proof.
  unfold str_int. intros H.
  apply (f_equal NilZero.int_of_string) in H.
  destruct (to_int_not_nil n) as [Hn1 Hn2], (to_int_not_nil m) as [Hm1 Hm2].
  rewrite !NilZero.isi in H by assumption.
  injection H as H. apply DecimalZ.to_int_inj, H.
Qed.

Lemma starts_with_slash_prefix (project_name rest1 rest2 : string) :
  starts_with_slash (project_name ++ "_tile_" ++ rest1) =
  starts_with_slash (project_name ++ "_tile_" ++ rest2).
Proof. destruct project_name; reflexivity. Qed.

(** Different tile indices give different output paths. *)
Lemma tile_output_path_inj save_path project_name n m :
  tile_output_path save_path project_name n =
  tile_output_path save_path project_name m -> n = m.
Proof.
  unfold tile_output_path, os_path_join. cbv zeta.
  rewrite (starts_with_slash_prefix project_name (str_int n ++ ".png")
             (str_int m ++ ".png")).
  intros H.
  assert (E : project_name ++ "_tile_" ++ str_int n ++ ".png" =
              project_name ++ "_tile_" ++ str_int m ++ ".png").
  { destruct (starts_with_slash _); [exact H |].
    destruct (_ || _).
    - apply append_cancel_l in H. exact H.
    - apply append_cancel_l in H. apply (append_cancel_l "/") in H. exact H. }
  apply append_cancel_l in E. apply (append_cancel_l "_tile_") in E.
  apply append_cancel_r in E. apply str_int_inj, E.
Qed.

(** In every run each file written is paired with a save notice naming the
    same path, and that path is built from the index announced. *)
Lemma written_have_save_notices w image_path t save_path project_name :
  let tr := snd (split_image w image_path t save_path project_name) in
  map fst (written tr) = map snd (saved tr) /\
  Forall (fun np => snd np = tile_output_path save_path project_name (fst np))
         (saved tr).
Proof.
  cbv zeta.
  apply (split_image_trace_ind
           (fun tr => map fst (written tr) = map snd (saved tr) /\
                      Forall (fun np => snd np =
                                tile_output_path save_path project_name (fst np))
                             (saved tr))).
  - split; [reflexivity | constructor].
  - intros t1 t2 [E1 F1] [E2 F2].
    rewrite written_app, saved_app, !map_app, E1, E2. split; [reflexivity |].
    apply Forall_app. split; assumption.
  - intros ev Hout. destruct ev as [m | | | | |]; try contradiction;
      try (split; [reflexivity | constructor]).
    destruct m; try discriminate; split; reflexivity || constructor.
  - intros src tp i j n _. rewrite process_tile_eq. cbv zeta.
    destruct (ds_count src =? 4).
    + destruct (np_all_eq_zero _); cbn; split; auto.
    + destruct (ds_count src =? 3).
      * destruct (np_any _); cbn; split; auto.
      * cbn; split; auto.
Qed.

(** X6.  In every run each file written is announced by a save notice naming
    the same path, that path is the output directory joined with
    [{project_name}_tile_{index}.png] for the index announced, and no two
    files of the run are written to the same path. *)
Theorem written_paths_distinct w image_path t save_path project_name :
  let tr := snd (split_image w image_path t save_path project_name) in
  map fst (written tr) = map snd (saved tr) /\
  Forall (fun np => snd np = tile_output_path save_path project_name (fst np))
         (saved tr) /\
  NoDup (map fst (written tr)).
Proof.
  cbv zeta.
  destruct (written_have_save_notices w image_path t save_path project_name)
    as [E F].
  split; [exact E |]. split; [exact F |].
  rewrite E.
  destruct (split_image_tile_indices w image_path t save_path project_name) as [k Hk].
  pose proof (saved_indices_NoDup _ (eq_ind_r (fun l => NoDup l) (count_from_NoDup 0 k) Hk))
    as Hnd.
  set (tr := snd (split_image w image_path t save_path project_name)) in *.
  assert (Emap : map snd (saved tr) =
                 map (tile_output_path save_path project_name) (map fst (saved tr))).
  { clear - F. induction F as [| np l Hnp _ IH]; [reflexivity |].
    cbn [map]. rewrite Hnp, IH. reflexivity. }
  rewrite Emap. apply NoDup_map_NoDup_ForallPairs; [| exact Hnd].
  intros x y _ _ Hxy. apply (tile_output_path_inj save_path project_name), Hxy.
Qed.

(** On a valid input the number of indices announced is the size of the
    grid. *)
Lemma row_major_run_lengths w image_path t save_path project_name src :
  valid_input w image_path t src ->
  exists tp,
    math_ceil (SFdiv prec emax t (SFabs (aff_a (ds_transform src)))) = Ok tp /\
    Z.of_nat (List.length
                (tile_indices (snd (split_image w image_path t save_path project_name))))
    = ((ds_width src + tp - 1) / tp) * ((ds_height src + tp - 1) / tp).
Proof.
  intros Hv.
  destruct (valid_run_observations w image_path t save_path project_name src Hv)
    as (tp & Hceil & Htp & Hobs).
  destruct Hv as (_ & _ & HW & HH & _).
  exists tp. split; [exact Hceil |].
  cbv zeta in Hobs. destruct Hobs as (_ & _ & _ & _ & Hidx).
  rewrite Hidx, range_length. apply Z2Nat.id.
  apply Z.mul_nonneg_nonneg; apply ceil_div_nonneg; assumption.
Qed.

(** X7.  In every run each file written has its save notice, so the tiles split
    into written and skipped ones: on a valid input the number of files
    written plus the number of skip notices is [w_tiles * h_tiles]. *)
Theorem written_plus_skipped w image_path t save_path project_name src :
  valid_input w image_path t src ->
  exists tp,
    math_ceil (SFdiv prec emax t (SFabs (aff_a (ds_transform src)))) = Ok tp /\
    let w_tiles := (ds_width src + tp - 1) / tp in
    let h_tiles := (ds_height src + tp - 1) / tp in
    let tr := snd (split_image w image_path t save_path project_name) in
    Z.of_nat (List.length (written tr)) + Z.of_nat (List.length (skipped tr)) =
    w_tiles * h_tiles.
Proof.
  intros Hv.
  destruct (row_major_run_lengths w image_path t save_path project_name src Hv)
    as (tp & Hceil & Hlen).
  exists tp. split; [exact Hceil |]. cbv zeta in *.
  pose proof (written_have_save_notices w image_path t save_path project_name)
    as (E & _).
  cbv zeta in E. apply (f_equal (@List.length string)) in E.
  rewrite !length_map in E.
  rewrite <- Hlen, tile_indices_saved_skipped, E. lia.
Qed.

Lemma written_plus_skipped_witness :
  valid_input (ex_world (ex_small 4)) "ortho.tif" (b64 1 0) (ex_small 4) /\
  let tr := snd (split_image (ex_world (ex_small 4)) "ortho.tif" (b64 1 0)
                   "tiles" "proj") in
  Z.of_nat (List.length (written tr)) + Z.of_nat (List.length (skipped tr)) = 6.
Proof.
  assert (Hv : valid_input (ex_world (ex_small 4)) "ortho.tif" (b64 1 0) (ex_small 4)).
  { unfold valid_input. repeat split; try reflexivity; cbn; lia. }
  split; [exact Hv |].
  destruct (written_plus_skipped (ex_world (ex_small 4)) "ortho.tif" (b64 1 0)
              "tiles" "proj" (ex_small 4) Hv) as (tp & Hceil & Hsum).
  vm_compute in Hceil. injection Hceil as <-. exact Hsum.
Defined.

(** X8.  No run writes an empty tile, and files are written for 3- and 4-band
    rasters only: every image written from a 4-band raster has a non-zero
    value in its channel 3, every image written from a 3-band raster has a
    non-zero sample. *)
Theorem no_empty_tile_written w image_path t save_path project_name src :
  rasterio_open w image_path = Some src ->
  Forall (fun file =>
            (ds_count src = 4 /\ np_all_eq_zero (channel 3 (snd file)) = false) \/
            (ds_count src = 3 /\ np_any (snd file) = true))
         (written (snd (split_image w image_path t save_path project_name))).
Proof.
  intros Hopen.
  apply (split_image_trace_ind
           (fun tr =>
              Forall (fun file =>
                        (ds_count src = 4 /\
                         np_all_eq_zero (channel 3 (snd file)) = false) \/
                        (ds_count src = 3 /\ np_any (snd file) = true))
                     (written tr))).
  - constructor.
  - intros t1 t2 H1 H2. rewrite written_app. apply Forall_app. split; assumption.
  - intros ev Hout. destruct ev; try contradiction; constructor.
  - intros src' tp i j n Hopen'. rewrite Hopen in Hopen'. injection Hopen' as <-.
    rewrite process_tile_eq. cbv zeta.
    destruct (Z.eqb_spec (ds_count src) 4) as [E4 | E4].
    + destruct (np_all_eq_zero _) eqn:Ea; cbn; constructor; [| constructor].
      left. split; [exact E4 | exact Ea].
    + destruct (Z.eqb_spec (ds_count src) 3) as [E3 | E3].
      * destruct (np_any _) eqn:Ea; cbn; constructor; [| constructor].
        right. split; [exact E3 | exact Ea].
      * constructor.
Qed.

Lemma no_empty_tile_written_witness :
  rasterio_open (ex_world (ex_small 4)) "ortho.tif" = Some (ex_small 4) /\
  Forall (fun file =>
            (ds_count (ex_small 4) = 4 /\
             np_all_eq_zero (channel 3 (snd file)) = false) \/
            (ds_count (ex_small 4) = 3 /\ np_any (snd file) = true))
         (written (snd (split_image (ex_world (ex_small 4)) "ortho.tif" (b64 1 0)
                          "tiles" "proj"))).
Proof.
  split; [reflexivity |].
  exact (no_empty_tile_written (ex_world (ex_small 4)) "ortho.tif" (b64 1 0)
           "tiles" "proj" (ex_small 4) eq_refl).
Defined.

Lemma grid_shape h w chans (f : Z -> Z -> list Z) :
  0 <= h -> 0 <= w ->
  (forall r c, Z.of_nat (List.length (f r c)) = chans) ->
  image_shape (grid h w f) h w chans.
Proof.
  intros Hh Hw Hf. unfold image_shape. split.
  - rewrite grid_length. apply Z2Nat.id, Hh.
  - unfold grid. apply Forall_forall. intros row Hrow.
    apply in_map_iff in Hrow. destruct Hrow as (r & <- & _). split.
    + rewrite length_map, range_length. apply Z2Nat.id, Hw.
    + apply Forall_forall. intros px Hpx.
      apply in_map_iff in Hpx. destruct Hpx as (c & <- & _). apply Hf.
Qed.

(* ================================================================== *)
(** * Degenerate tile sizes *)

(** X10.  On a raster with a finite, non-zero resolution the tile size is not
    validated before use: a tile size of zero stops the run with
    [ZeroDivisionError], an infinite one with [OverflowError] and NaN with
    [ValueError], in each case after the raster was opened and before any
    tile is read. *)
Theorem degenerate_tile_size w image_path t save_path project_name src :
  os_path_isfile w image_path = true ->
  rasterio_open w image_path = Some src ->
  finite_nonzero (SFabs (aff_a (ds_transform src))) = true ->
  float_eq_zero (SFabs (aff_e (ds_transform src))) = false ->
  let run := split_image w image_path t save_path project_name in
  ((exists s, t = S754_zero s) ->
     fst run = Raise (ZeroDivisionError "integer division or modulo by zero")) /\
  ((exists s, t = S754_infinity s) ->
     fst run = Raise (OverflowError "cannot convert float infinity to integer")) /\
  (t = S754_nan ->
     fst run = Raise (ValueError "cannot convert float NaN to integer")) /\
  (finite_nonzero t = false ->
     In (Open image_path) (snd run) /\ reads (snd run) = []).
Proof.
  intros Hfile Hopen Hpw He.
  assert (Ha : float_eq_zero (SFabs (aff_a (ds_transform src))) = false)
    by (destruct (SFabs (aff_a (ds_transform src))) as [| | | [] ? ?];
        try discriminate; reflexivity).
  pose proof (split_image_degenerate_quotient w image_path t save_path project_name
                src Hfile Hopen Ha He) as Hq.
  cbv zeta in *. destruct Hq as (Hzero & Hinf & Hnan & Hreads).
  destruct (SFabs (aff_a (ds_transform src))) as [s' | s' | | s' m' e'] eqn:Epw;
    try discriminate.
  split; [| split; [| split]].
  - intros (s & ->). apply Hzero. eexists. reflexivity.
  - intros (s & ->). apply Hinf. eexists. reflexivity.
  - intros ->. apply Hnan. reflexivity.
  - intros Ht. split.
    + rewrite split_image_eq, Hfile, Hopen.
      destruct (split_opened src t save_path project_name) as [[[] | e] tr];
        cbn [snd]; apply in_or_app; right; left; reflexivity.
    + apply Hreads. destruct t; try discriminate; reflexivity.
Qed.

Lemma degenerate_tile_size_witness :
  (os_path_isfile (ex_world (ex_small 4)) "ortho.tif" = true /\
   rasterio_open (ex_world (ex_small 4)) "ortho.tif" = Some (ex_small 4) /\
   finite_nonzero (SFabs (aff_a (ds_transform (ex_small 4)))) = true /\
   float_eq_zero (SFabs (aff_e (ds_transform (ex_small 4)))) = false) /\
  fst (split_image (ex_world (ex_small 4)) "ortho.tif" (S754_zero false)
         "tiles" "proj") =
  Raise (ZeroDivisionError "integer division or modulo by zero").
Proof.
  split; [repeat split; reflexivity |].
  apply (proj1 (degenerate_tile_size (ex_world (ex_small 4)) "ortho.tif"
                  (S754_zero false) "tiles" "proj" (ex_small 4)
                  eq_refl eq_refl eq_refl eq_refl)).
  exists false. reflexivity.
Defined.

Lemma for_each_empty_inner {A B S} (body : A -> B -> S -> M S) (xs : list A) :
  forall s,
    for_each xs (fun x s => for_each [] (fun y s => body x y s) s) s = (Ok s, []).
Proof.
  induction xs as [| x rest IH]; intros s; [reflexivity |].
  cbn [for_each]. unfold bind, ret. rewrite IH. reflexivity.
Qed.

(** X11.  A negative tile size is not rejected either: when the resulting
    [tile_px] is negative and the image is wider than [1 - tile_px]
    pixels, the number of tile columns is negative, the loops do not
    iterate, and the run completes normally without reading or writing
    anything. *)
Theorem negative_tile_size_visits_nothing
    w image_path t save_path project_name src tp :
  os_path_isfile w image_path = true ->
  rasterio_open w image_path = Some src ->
  float_eq_zero (SFabs (aff_a (ds_transform src))) = false ->
  float_eq_zero (SFabs (aff_e (ds_transform src))) = false ->
  math_ceil (SFdiv prec emax t (SFabs (aff_a (ds_transform src)))) = Ok tp ->
  tp < 0 -> 1 - tp < ds_width src ->
  let run := split_image w image_path t save_path project_name in
  (ds_width src + tp - 1) / tp < 0 /\
  fst run = Ok tt /\
  reads (snd run) = [] /\ written (snd run) = [] /\ tile_indices (snd run) = [].
Proof.
  intros Hfile Hopen Ha He Hceil Htp HW.
  assert (Hw : (ds_width src + tp - 1) / tp < 0).
  { rewrite <- Z.div_opp_opp by lia. apply Z.div_lt_upper_bound; lia. }
  cbv zeta. split; [exact Hw |].
  rewrite split_image_eq, Hfile, Hopen, split_opened_eq. cbv zeta.
  rewrite Ha, He. cbn [orb]. rewrite Hceil.
  replace (tp =? 0) with false by (symmetry; apply Z.eqb_neq; lia).
  assert (Hloop : tile_loop src save_path project_name tp
                    ((ds_width src + tp - 1) / tp)
                    ((ds_height src + tp - 1) / tp) 0 = (Ok 0, [])).
  { unfold tile_loop.
    assert (Hr : range ((ds_width src + tp - 1) / tp) = []).
    { unfold range. replace (Z.to_nat _) with 0%nat by lia. reflexivity. }
    rewrite Hr. apply for_each_empty_inner. }
  rewrite Hloop. cbn [fst snd].
  rewrite !reads_app, !written_app, !tile_indices_app.
  rewrite reads_preamble, written_preamble, tile_indices_preamble.
  repeat split; reflexivity.
Qed.

Lemma negative_tile_size_visits_nothing_witness :
  (math_ceil (SFdiv prec emax (SFopp (b64 1 0))
                (SFabs (aff_a (ds_transform (ex_small 4))))) = Ok (-2) /\
   -2 < 0 /\ 1 - -2 < ds_width (ex_small 4)) /\
  let run := split_image (ex_world (ex_small 4)) "ortho.tif" (SFopp (b64 1 0))
               "tiles" "proj" in
  fst run = Ok tt /\ reads (snd run) = [] /\ written (snd run) = [].
Proof.
  split; [repeat split; try reflexivity; cbn; lia |].
  pose proof (negative_tile_size_visits_nothing (ex_world (ex_small 4)) "ortho.tif"
                (SFopp (b64 1 0)) "tiles" "proj" (ex_small 4) (-2)
                eq_refl eq_refl eq_refl eq_refl eq_refl
                ltac:(lia) ltac:(cbn; lia)) as (_ & Hok & Hr & Hw & _).
  cbv zeta. auto.
Defined.

(* ================================================================== *)
(** * The completion message *)

(** X12.  The completion message is printed exactly by the runs that end
    normally, and it is then the last thing the run does. *)
Theorem completion_message_iff_success w image_path t save_path project_name :
  let run := split_image w image_path t save_path project_name in
  (In (Print MsgDone) (snd run) <-> fst run = Ok tt) /\
  (fst run = Ok tt -> exists tr, snd run = (tr ++ [Print MsgDone])%list).
Proof.
  cbv zeta.
  assert (Hok : fst (split_image w image_path t save_path project_name) = Ok tt ->
                exists tr, snd (split_image w image_path t save_path project_name)
                           = (tr ++ [Print MsgDone])%list).
  { rewrite split_image_eq.
    destruct (os_path_isfile w image_path); [| discriminate].
    destruct (rasterio_open w image_path) as [src |]; [| discriminate].
    destruct (split_opened src t save_path project_name) as [[[] | e] tr];
      [| discriminate].
    intros _. cbn [snd].
    exists (preamble w image_path t save_path ++ [Open image_path] ++ tr ++
            [Close image_path])%list.
    rewrite <- !app_assoc. reflexivity. }
  split; [| exact Hok]. split.
  - intros Hin.
    destruct (fst (split_image w image_path t save_path project_name))
      as [[] | e] eqn:E; [reflexivity | exfalso].
    pose proof (raising_run_prints_no_completion w image_path t save_path
                  project_name e E) as Hnot.
    exact (Hnot Hin).
  - intros H. destruct (Hok H) as [tr ->]. apply in_or_app. right. left. reflexivity.
Qed.

(* ================================================================== *)
(** * The missing-input failure when directory creation can fail *)

(** [split_image_os] written out: it stops at the existence check, or at
    a failing [os.makedirs], or continues as [split_image] does. *)
Lemma split_image_os_eq w makedirs_error image_path t save_path project_name :
  split_image_os w makedirs_error image_path t save_path project_name =
  if os_path_isfile w image_path then
    if os_path_exists w save_path then
      split_image w image_path t save_path project_name
    else
      match fst (os_makedirs makedirs_error save_path) with
      | Raise e =>
          (Raise e, [Print (MsgProcessing image_path t); Print MsgDirWarning])
      | Ok _ => split_image w image_path t save_path project_name
      end
  else (Raise (NotFoundError image_path), [Print (MsgProcessing image_path t)]).
Proof.
  unfold split_image_os, split_image, os_makedirs.
  destruct (os_path_isfile w image_path); [| reflexivity].
  destruct (os_path_exists w save_path); [reflexivity |].
  destruct (String.eqb save_path EmptyString); [reflexivity |].
  destruct (makedirs_error save_path); reflexivity.
Qed.

(** The two models agree whenever the output directory exists or its
    creation succeeds. *)
Lemma split_image_os_refines w makedirs_error image_path t save_path project_name :
  os_path_exists w save_path = true \/
  (save_path <> EmptyString /\ makedirs_error save_path = None) ->
  split_image_os w makedirs_error image_path t save_path project_name =
  split_image w image_path t save_path project_name.
Proof.
  intros H. rewrite split_image_os_eq.
  destruct (os_path_isfile w image_path) eqn:Hfile.
  - destruct (os_path_exists w save_path); [reflexivity |].
    destruct H as [H | [Hne Hok]]; [discriminate |].
    unfold os_makedirs. apply String.eqb_neq in Hne. rewrite Hne, Hok. reflexivity.
  - rewrite split_image_eq, Hfile. reflexivity.
Qed.

(** Past the existence check and the directory creation, no
    [FileNotFoundError] is raised. *)
Lemma split_image_not_found_only_missing w image_path t save_path project_name msg :
  fst (split_image w image_path t save_path project_name) =
    Raise (FileNotFoundError msg) ->
  os_path_isfile w image_path = false.
Proof.
  rewrite split_image_eq.
  destruct (os_path_isfile w image_path); [| reflexivity].
  intros Hraise. exfalso.
  destruct (rasterio_open w image_path) as [src |]; [| discriminate].
  pose proof (split_opened_raises src t save_path project_name
                (FileNotFoundError msg)) as Hcases.
  destruct (split_opened src t save_path project_name) as [[[] | e] tr];
    cbn [fst] in *; [discriminate |].
  injection Hraise as ->. specialize (Hcases eq_refl).
  destruct Hcases as [[H _] | [H | [H | H]]]; discriminate.
Qed.

(** C7, as amended.  If the source path does not name an existing file,
    the run fails with [NotFoundError], raised before any I/O on the
    raster.  Conversely a run that fails with a [FileNotFoundError] either
    has a missing source file or got that error from [os.makedirs] on an
    absent output directory, in both cases before any I/O on the raster;
    so the run fails with [FileNotFoundError] if and only if the source
    file is missing, whenever the output directory exists or its creation
    does not raise [FileNotFoundError]. *)
Theorem file_not_found_sources w makedirs_error image_path t save_path project_name :
  let run := split_image_os w makedirs_error image_path t save_path project_name in
  (os_path_isfile w image_path = false ->
   run = (Raise (NotFoundError image_path), [Print (MsgProcessing image_path t)]) /\
   raster_io (snd run) = []) /\
  (forall msg, fst run = Raise (FileNotFoundError msg) ->
     raster_io (snd run) = [] /\
     (os_path_isfile w image_path = false \/
      (os_path_isfile w image_path = true /\
       os_path_exists w save_path = false /\
       fst (os_makedirs makedirs_error save_path) = Raise (FileNotFoundError msg)))) /\
  (os_path_exists w save_path = true \/
   (forall msg, fst (os_makedirs makedirs_error save_path)
                <> Raise (FileNotFoundError msg)) ->
   ((exists msg, fst run = Raise (FileNotFoundError msg)) <->
    os_path_isfile w image_path = false)).
Proof.
  cbv zeta.
  assert (Hmissing :
            os_path_isfile w image_path = false ->
            split_image_os w makedirs_error image_path t save_path project_name =
            (Raise (NotFoundError image_path), [Print (MsgProcessing image_path t)])).
  { intros Hfile. rewrite split_image_os_eq, Hfile. reflexivity. }
  assert (Hsources :
            forall msg,
              fst (split_image_os w makedirs_error image_path t save_path project_name)
              = Raise (FileNotFoundError msg) ->
              raster_io (snd (split_image_os w makedirs_error image_path t save_path
                                project_name)) = [] /\
              (os_path_isfile w image_path = false \/
               (os_path_isfile w image_path = true /\
                os_path_exists w save_path = false /\
                fst (os_makedirs makedirs_error save_path)
                = Raise (FileNotFoundError msg)))).
  { intros msg. rewrite split_image_os_eq.
    destruct (os_path_isfile w image_path) eqn:Hfile.
    2: { intros _. split; [reflexivity | left; reflexivity]. }
    destruct (os_path_exists w save_path) eqn:Hexists.
    - intros Hraise.
      apply split_image_not_found_only_missing in Hraise. congruence.
    - destruct (fst (os_makedirs makedirs_error save_path)) as [[] | e] eqn:Hmk.
      + intros Hraise.
        apply split_image_not_found_only_missing in Hraise. congruence.
      + cbn [fst snd]. intros [= ->]. split; [reflexivity |]. right. auto. }
  split; [| split].
  - intros Hfile. rewrite (Hmissing Hfile). split; reflexivity.
  - exact Hsources.
  - intros Hdir. split.
    + intros (msg & Hraise).
      destruct (Hsources msg Hraise) as (_ & [Hfile | (_ & Hexists & Hmk)]);
        [exact Hfile |].
      destruct Hdir as [Hdir | Hdir]; [congruence | destruct (Hdir msg Hmk)].
    + intros Hfile. rewrite (Hmissing Hfile). eexists. reflexivity.
Qed.

Lemma file_not_found_sources_witness :
  (os_path_isfile (ex_world ex_large) "missing.tif" = false /\
   os_path_exists (ex_world ex_large) "out" = false) /\
  let run := split_image_os (ex_world ex_large) (fun _ => None) "missing.tif"
               f_hundred "out" "proj" in
  run = (Raise (FileNotFoundError "O arquivo missing.tif não foi encontrado."),
         [Print (MsgProcessing "missing.tif" f_hundred)]) /\
  raster_io (snd run) = [].
Proof.
  split; [split; reflexivity |].
  exact (proj1 (file_not_found_sources (ex_world ex_large) (fun _ => None)
                  "missing.tif" f_hundred "out" "proj") eq_refl).
Defined.

(** C7 as stated fails: with the input file present and an empty output
    path (which never exists), [os.makedirs] refuses the path and the run
    fails with [FileNotFoundError] although the source file exists. *)
Lemma file_not_found_with_input_present :
  let run := split_image_os (ex_world ex_large) (fun _ => None) "ortho.tif"
               f_hundred EmptyString "proj" in
  os_path_isfile (ex_world ex_large) "ortho.tif" = true /\
  os_path_exists (ex_world ex_large) EmptyString = false /\
  run = (Raise (FileNotFoundError "[Errno 2] No such file or directory: ''"),
         [Print (MsgProcessing "ortho.tif" f_hundred); Print MsgDirWarning]) /\
  ~ ((exists msg, fst run = Raise (FileNotFoundError msg)) <->
     os_path_isfile (ex_world ex_large) "ortho.tif" = false).
Proof.
  cbv zeta. split; [reflexivity |]. split; [reflexivity |]. split; [reflexivity |].
  intros [Honly _].
  assert (H : os_path_isfile (ex_world ex_large) "ortho.tif" = false).
  { apply Honly. eexists. reflexivity. }
  discriminate H.
Qed.

(* ================================================================== *)
(** * Dimensions of the written images *)

(** A loop over [range]-like indices whose body advances the state by [d]:
    the body runs at index [k] with the state [s0 + k * d]. *)
Lemma for_each_seq_indexed (P : list event -> Prop) (body : Z -> Z -> M Z) (d : Z) :
  P [] ->
  (forall t1 t2, P t1 -> P t2 -> P (t1 ++ t2)%list) ->
  (forall x s, fst (body x s) = Ok (s + d)) ->
  forall s0 len a,
    (forall k, (a <= k < a + len)%nat ->
       P (snd (body (Z.of_nat k) (s0 + Z.of_nat k * d)))) ->
    P (snd (for_each (map Z.of_nat (seq a len)) body (s0 + Z.of_nat a * d))).
Proof.
  intros Hnil Happ Hstep s0. induction len as [| len IH]; intros a Hbody.
  - exact Hnil.
  - cbn [seq map for_each]. unfold bind.
    pose proof (Hstep (Z.of_nat a) (s0 + Z.of_nat a * d)) as Hf.
    pose proof (Hbody a ltac:(lia)) as Ha.
    destruct (body (Z.of_nat a) (s0 + Z.of_nat a * d)) as [[s' | e] tr];
      cbn [fst snd] in *; [| discriminate].
    injection Hf as ->.
    replace (s0 + Z.of_nat a * d + d) with (s0 + Z.of_nat (S a) * d) by lia.
    assert (Hrest : P (snd (for_each (map Z.of_nat (seq (S a) len)) body
                              (s0 + Z.of_nat (S a) * d)))).
    { apply IH. intros k Hk. apply Hbody. lia. }
    destruct (for_each (map Z.of_nat (seq (S a) len)) body (s0 + Z.of_nat (S a) * d))
      as [r tr'].
    cbn [snd] in *. apply Happ; assumption.
Qed.

(** One row of the double loop visits the windows of that row. *)
Lemma row_loop_visits src save_path project_name tp w_tiles i s :
  visits (for_each (range w_tiles)
            (fun j n => process_tile src save_path project_name tp i j n) s)
         s
         (map (fun j => tile_window (ds_width src) (ds_height src) tp i j)
              (range w_tiles)).
Proof.
  rewrite <- flat_map_single.
  apply (for_each_visits
           (fun j n => process_tile src save_path project_name tp i j n)
           (fun j => [tile_window (ds_width src) (ds_height src) tp i j])).
  intros j n. unfold visits. cbn [List.length].
  pose proof (process_tile_visit src save_path project_name tp i j n) as (Hf & Hr & Hi).
  rewrite Hf, Hr, Hi. change (Z.of_nat 1) with 1.
  unfold count_from. cbn [seq map]. change (Z.of_nat 0) with 0.
  rewrite Z.add_0_r. auto.
Qed.

(** In the double loop the body of the tile in row [i] and column [j]
    runs with the tile index [s0 + i * w_tiles + j]. *)
Lemma tile_loop_trace_ind_indexed (P : list event -> Prop)
    src save_path project_name tp w_tiles h_tiles s0 :
  P [] ->
  (forall t1 t2, P t1 -> P t2 -> P (t1 ++ t2)%list) ->
  (forall i j, 0 <= i < h_tiles -> 0 <= j < w_tiles ->
     P (snd (process_tile src save_path project_name tp i j
               (s0 + i * w_tiles + j)))) ->
  P (snd (tile_loop src save_path project_name tp w_tiles h_tiles s0)).
Proof.
  intros Hnil Happ Htile. unfold tile_loop.
  set (inner := fun i n =>
                  for_each (range w_tiles)
                    (fun j n => process_tile src save_path project_name tp i j n) n).
  change (P (snd (for_each (range h_tiles) inner s0))).
  assert (Hinner_step : forall i s,
             fst (inner i s) = Ok (s + Z.of_nat (Z.to_nat w_tiles))).
  { intros i s. subst inner. cbv beta.
    destruct (row_loop_visits src save_path project_name tp w_tiles i s) as (Hf & _).
    rewrite Hf, length_map, range_length. reflexivity. }
  replace s0 with (s0 + Z.of_nat 0 * Z.of_nat (Z.to_nat w_tiles)) by lia.
  unfold range at 1.
  apply (for_each_seq_indexed P inner (Z.of_nat (Z.to_nat w_tiles)) Hnil Happ
           Hinner_step s0 (Z.to_nat h_tiles) 0%nat).
  intros ki Hki. subst inner. cbv beta.
  set (si := s0 + Z.of_nat ki * Z.of_nat (Z.to_nat w_tiles)).
  replace si with (si + Z.of_nat 0 * 1) by lia.
  unfold range.
  apply (for_each_seq_indexed P
           (fun j n => process_tile src save_path project_name tp (Z.of_nat ki) j n)
           1 Hnil Happ
           (fun j n => proj1 (process_tile_visit src save_path project_name tp
                                (Z.of_nat ki) j n))
           si (Z.to_nat w_tiles) 0%nat).
  intros kj Hkj.
  replace (si + Z.of_nat kj * 1) with (s0 + Z.of_nat ki * w_tiles + Z.of_nat kj)
    by (subst si; rewrite Z2Nat.id by lia; lia).
  apply Htile; lia.
Qed.

(** X9.  Tiles are written at the dimensions of their window, never padded:
    on a valid input every file written is the file of one tile of the
    grid, in row [i] and column [j], it is named with the tile index
    [i * w_tiles + j], and its image has exactly
    [min(tile_px, image_height - i * tile_px)] rows and
    [min(tile_px, image_width - j * tile_px)] columns (both between 1 and
    [tile_px]) and as many channels as the raster has bands. *)
Theorem written_image_dimensions w image_path t save_path project_name src :
  valid_input w image_path t src ->
  exists tp,
    math_ceil (SFdiv prec emax t (SFabs (aff_a (ds_transform src)))) = Ok tp /\
    let w_tiles := (ds_width src + tp - 1) / tp in
    let h_tiles := (ds_height src + tp - 1) / tp in
    Forall (fun file =>
              exists i j,
                0 <= i < h_tiles /\ 0 <= j < w_tiles /\
                let rows := Z.min tp (ds_height src - i * tp) in
                let cols := Z.min tp (ds_width src - j * tp) in
                fst file = tile_output_path save_path project_name (i * w_tiles + j) /\
                1 <= rows <= tp /\ 1 <= cols <= tp /\
                image_shape (snd file) rows cols (ds_count src))
           (written (snd (split_image w image_path t save_path project_name))).
Proof.
  intros Hv.
  destruct (split_image_valid w image_path t save_path project_name src Hv)
    as (tp & Hceil & Htp & Hrun).
  exists tp. split; [exact Hceil |].
  cbv zeta in Hrun |- *. rewrite Hrun. cbn [snd].
  rewrite !written_app, written_preamble. cbn [written flat_map app].
  rewrite app_nil_r.
  set (w_tiles := (ds_width src + tp - 1) / tp).
  set (h_tiles := (ds_height src + tp - 1) / tp).
  apply (tile_loop_trace_ind_indexed
           (fun tr =>
              Forall (fun file =>
                        exists i j,
                          0 <= i < h_tiles /\ 0 <= j < w_tiles /\
                          fst file = tile_output_path save_path project_name
                                       (i * w_tiles + j) /\
                          1 <= Z.min tp (ds_height src - i * tp) <= tp /\
                          1 <= Z.min tp (ds_width src - j * tp) <= tp /\
                          image_shape (snd file)
                            (Z.min tp (ds_height src - i * tp))
                            (Z.min tp (ds_width src - j * tp)) (ds_count src))
                     (written tr))).
  - constructor.
  - intros t1 t2 H1 H2. rewrite written_app. apply Forall_app. split; assumption.
  - intros i j Hi Hj.
    pose proof (tile_window_bounds (ds_width src) (ds_height src) tp i j Htp Hi Hj)
      as Hb.
    cbv zeta in Hb. destruct Hb as (_ & _ & Hw & Hh & _).
    rewrite process_tile_eq. cbv zeta.
    assert (Hwin : forall f chans,
               (forall r c, Z.of_nat (List.length (f r c)) = chans) ->
               image_shape
                 (grid (height (tile_window (ds_width src) (ds_height src) tp i j))
                       (width (tile_window (ds_width src) (ds_height src) tp i j)) f)
                 (Z.min tp (ds_height src - i * tp))
                 (Z.min tp (ds_width src - j * tp)) chans).
    { intros f chans Hf. apply (grid_shape _ _ chans f); [| | exact Hf].
      - cbn [tile_window height] in *. unfold tile_window in Hh. cbn in Hh. lia.
      - unfold tile_window in Hw. cbn in Hw. unfold tile_window. cbn. lia. }
    unfold tile_window in Hw, Hh. cbn [width height] in Hw, Hh.
    destruct (Z.eqb_spec (ds_count src) 4) as [E4 | E4].
    + rewrite out_img_four_bands by exact E4.
      destruct (np_all_eq_zero _); cbn [written flat_map app];
        constructor; [| constructor].
      exists i, j. cbn [fst snd]. rewrite Z.add_0_l.
      split; [lia |]. split; [lia |]. split; [reflexivity |].
      split; [lia |]. split; [lia |]. rewrite E4. apply Hwin. reflexivity.
    + destruct (Z.eqb_spec (ds_count src) 3) as [E3 | E3]; [| constructor].
      rewrite out_img_three_bands by exact E3.
      destruct (np_any _); cbn [written flat_map app];
        constructor; [| constructor].
      exists i, j. cbn [fst snd]. rewrite Z.add_0_l.
      split; [lia |]. split; [lia |]. split; [reflexivity |].
      split; [lia |]. split; [lia |]. rewrite E3. apply Hwin. reflexivity.
Qed.

Lemma written_image_dimensions_witness :
  valid_input (ex_world (ex_small 4)) "ortho.tif" (b64 1 0) (ex_small 4) /\
  Forall (fun file =>
            exists i j,
              0 <= i < 2 /\ 0 <= j < 3 /\
              fst file = tile_output_path "tiles" "proj" (i * 3 + j) /\
              1 <= Z.min 2 (3 - i * 2) <= 2 /\ 1 <= Z.min 2 (5 - j * 2) <= 2 /\
              image_shape (snd file) (Z.min 2 (3 - i * 2)) (Z.min 2 (5 - j * 2)) 4)
         (written (snd (split_image (ex_world (ex_small 4)) "ortho.tif" (b64 1 0)
                          "tiles" "proj"))).
Proof.
  assert (Hv : valid_input (ex_world (ex_small 4)) "ortho.tif" (b64 1 0) (ex_small 4)).
  { unfold valid_input. repeat split; try reflexivity; cbn; lia. }
  split; [exact Hv |].
  destruct (written_image_dimensions (ex_world (ex_small 4)) "ortho.tif" (b64 1 0)
              "tiles" "proj" (ex_small 4) Hv) as (tp & Hceil & Hall).
  vm_compute in Hceil. injection Hceil as <-. exact Hall.
Defined.
